(** * SmtpSender: a shallow embedding of SJLTools/SMTPSender/SmtpSender.py

  The Python class [SmtpSender] is a mutable message builder.  Its fields
  become a record, its methods become functions on that record, and the two
  methods that touch the outside world ([attach_file] reads a file,
  [send_email] reads the clock and talks to an SMTP host) run in a small
  state-and-exception monad over the builder and the log of transport
  calls.  The outside world is an explicit [Env]. *)

From Stdlib Require Import String Ascii List Bool Arith ZArith Lia Permutation.
Import ListNotations.
Open Scope string_scope.
Open Scope list_scope.

(** String concatenation, written as in Python source ([a + b]) but kept
  apart from the list [++]. *)
Infix "+s+" := String.append (at level 60, right associativity).

(* ================================================================== *)
(** ** Python string primitives used by the module *)

Module Py.

Definition comma : ascii := ","%char.
Definition slash : ascii := "/"%char.

(** [s.split(sep)] for a one-character separator: never the empty list,
    and [''.split(',') == ['']]. *)
Fixpoint split (sep : ascii) (s : string) : list string :=
  match s with
  | EmptyString => [EmptyString]
  | String c rest =>
      if Ascii.eqb c sep then EmptyString :: split sep rest
      else match split sep rest with
           | [] => [String c EmptyString]
           | tok :: toks => String c tok :: toks
           end
  end.

(** [sep.join(parts)] *)
Definition join (sep : string) (parts : list string) : string :=
  String.concat sep parts.

(** [len(s) == 0] on a str *)
Definition str_is_empty (s : string) : bool :=
  match s with EmptyString => true | _ => false end.

(** [len(l) == 0] on a list *)
Definition list_is_empty {A} (l : list A) : bool :=
  match l with [] => true | _ => false end.

(** [os.path.basename] (posix): what follows the last slash. *)
Fixpoint basename (p : string) : string :=
  match p with
  | EmptyString => EmptyString
  | String c rest =>
      if Ascii.eqb c slash then basename rest
      else if existsb (Ascii.eqb slash) (list_ascii_of_string rest)
           then basename rest
           else p
  end.

(** ASCII lower-casing, for header names (matched case-insensitively by
    [email.message.Message]). *)
Definition lower_char (c : ascii) : ascii :=
  let n := nat_of_ascii c in
  if Nat.leb 65 n && Nat.leb n 90 then ascii_of_nat (n + 32) else c.

Fixpoint lower (s : string) : string :=
  match s with
  | EmptyString => EmptyString
  | String c rest => String (lower_char c) (lower rest)
  end.

(** Dynamic values, as far as [send_email_message] inspects them with
    [type(x) is str] / [type(x) is list] / [x is None]. *)
Inductive value : Type :=
| VNone
| VStr (s : string)
| VList (l : list string)
| VOther (type_name : string).

(** [time.struct_time], the fields [strftime('%Y-%m-%d %H:%M')] reads. *)
Record struct_time : Type := {
tm_year : Z;
tm_mon : Z;
tm_mday : Z;
tm_hour : Z;
tm_min : Z
}.

Definition digit (d : Z) : ascii := ascii_of_nat (48 + Z.to_nat d).

Fixpoint decimal_aux (fuel : nat) (n : Z) (acc : string) : string :=
match fuel with
| 0 => acc
| S fuel' =>
    let acc' := String (digit (n mod 10)) acc in
    if (n <? 10)%Z then acc' else decimal_aux fuel' (n / 10) acc'
end.

(** [str(n)] for [n >= 0] *)
Definition decimal (n : Z) : string := decimal_aux (S (Z.to_nat n)) n EmptyString.

Fixpoint zeros (k : nat) : string :=
match k with 0 => EmptyString | S k' => String "0"%char (zeros k') end.

(** A number printed in at least [width] digits, zero padded. *)
Definition zfill (width : nat) (n : Z) : string :=
let d := decimal n in
zeros (width - String.length d) +s+ d.

(** [time.strftime('%Y-%m-%d %H:%M', t)] *)
Definition strftime_Ymd_HM (t : struct_time) : string :=
  decimal (tm_year t) +s+ "-" +s+ zfill 2 (tm_mon t) +s+ "-" +s+ zfill 2 (tm_mday t)
  +s+ " " +s+ zfill 2 (tm_hour t) +s+ ":" +s+ zfill 2 (tm_min t).

End Py.

(* ================================================================== *)
(** ** The [email.mime] objects the module builds *)

Module Mime.

Definition header : Type := (string * string)%type.

Inductive payload : Type :=
| Text (s : string)                  (* a str payload, as given to MIMEText *)
| Base64 (raw : string).             (* bytes after encoders.encode_base64 *)

(** A leaf part: [MIMEText] or [MIMEBase]. *)
Record part : Type := {
  maintype : string;
  subtype : string;
  body : payload;
  part_headers : list header
}.

(** [MIMEText(text, subtype)] *)
Definition MIMEText (text sub : string) : part :=
  {| maintype := "text"; subtype := sub; body := Text text; part_headers := [] |}.

(** [MIMEMultipart(subtype)]: header fields in the order they were set
    and sub-parts in the order they were attached. *)
Record multipart : Type := {
  multi_subtype : string;
  headers : list header;
  parts : list part
}.

Definition MIMEMultipart (sub : string) : multipart :=
  {| multi_subtype := sub;
     headers := [("Content-Type", "multipart/" +s+ sub); ("MIME-Version", "1.0")];
     parts := [] |}.

(** [msg[name] = value]: appends a field, never replaces one. *)
Definition set_header (name val : string) (m : multipart) : multipart :=
  {| multi_subtype := multi_subtype m;
     headers := headers m ++ [(name, val)];
     parts := parts m |}.

(** [msg.attach(p)] *)
Definition attach (p : part) (m : multipart) : multipart :=
  {| multi_subtype := multi_subtype m;
     headers := headers m;
     parts := parts m ++ [p] |}.

(** The values of the fields called [name], names compared without regard
    to case. *)
Definition named (name : string) (fields : list header) : list string :=
  map snd (filter (fun h => String.eqb (Py.lower (fst h)) (Py.lower name)) fields).

(** [msg.get_all(name)], with the empty list for Python's [None]. *)
Definition get_all (name : string) (m : multipart) : list string :=
  named name (headers m).

Definition has_header (name : string) (m : multipart) : bool :=
  negb (Py.list_is_empty (get_all name m)).

Definition is_text (sub : string) (p : part) : bool :=
  String.eqb (maintype p) "text" && String.eqb (subtype p) sub.

Definition is_attachment (p : part) : bool :=
  String.eqb (maintype p) "application" && String.eqb (subtype p) "octet-stream".

End Mime.

(* ================================================================== *)
(** ** The outside world *)

(** One call to the transport: [s.sendmail(from, to, msg.as_string())] on a
    session [s] opened to [host].  The document is kept as the structure
    [as_string] serialised: fields and parts in stored order. *)
Record delivery : Type := {
host : string;
envelope_from : string;
envelope_to : list string;
document : Mime.multipart
}.

(** An exception raised inside a library ([socket], [smtplib], [email]):
    the name of its class and its message.  The libraries raise classes of
    their own, not the plain [Exception]. *)
Record library_error : Type := {
class_name : string;
message : string
}.

(** What a call observes of its environment: the file system behind
    [open(path, "rb")]; the clock behind [time.strftime]; whether
    [smtplib.SMTP(host)] opens a session (the socket may fail, the server may
    not greet); whether the [email] library serialises a message ([as_string]
    raises, for one, on a header value that would start a new field); whether
    [sendmail] fails; whether closing the session fails (the server's answer
    to QUIT). *)
Record Env : Type := {
read_bytes : string -> option string;
localtime : Py.struct_time;
session_error : string -> option library_error;
as_string_error : Mime.multipart -> option library_error;
smtp_error : delivery -> option library_error;
quit_error : string -> option library_error
}.

(** Exceptions: the plain [Exception] this module raises itself, the
    [OSError] of [open], and what the libraries behind the transport raise. *)
Inductive exn : Type :=
| Exception (message : string)
| OSError (filename : string)
| LibraryError (e : library_error).

Definition nl : string := String (ascii_of_nat 10) EmptyString.
Definition dq : string := String (ascii_of_nat 34) EmptyString.

(* ================================================================== *)
(** ** class SmtpSender *)

Module SmtpSender.

(** The instance attributes assigned in [__init__]. *)
Record t : Type := {
sendFrom : string;
subject : string;
smtp_server : string;
_to_addresses : list string;
_cc_addresses : list string;
_bcc_addresses : list string;
_recipients : list string;
_smtp_message : Mime.multipart;
_html_header : string;
_text_parts : list string;
_html_parts : list string
}.

(** Attribute assignment, [self.f = v], one per attribute. *)
Definition set_sendFrom (v : string) (o : t) : t :=
{| sendFrom := v; subject := subject o; smtp_server := smtp_server o;
   _to_addresses := _to_addresses o; _cc_addresses := _cc_addresses o;
   _bcc_addresses := _bcc_addresses o; _recipients := _recipients o;
   _smtp_message := _smtp_message o; _html_header := _html_header o;
   _text_parts := _text_parts o; _html_parts := _html_parts o |}.

Definition set_subject (v : string) (o : t) : t :=
{| sendFrom := sendFrom o; subject := v; smtp_server := smtp_server o;
   _to_addresses := _to_addresses o; _cc_addresses := _cc_addresses o;
   _bcc_addresses := _bcc_addresses o; _recipients := _recipients o;
   _smtp_message := _smtp_message o; _html_header := _html_header o;
   _text_parts := _text_parts o; _html_parts := _html_parts o |}.

Definition set_smtp_server (v : string) (o : t) : t :=
{| sendFrom := sendFrom o; subject := subject o; smtp_server := v;
   _to_addresses := _to_addresses o; _cc_addresses := _cc_addresses o;
   _bcc_addresses := _bcc_addresses o; _recipients := _recipients o;
   _smtp_message := _smtp_message o; _html_header := _html_header o;
   _text_parts := _text_parts o; _html_parts := _html_parts o |}.

Definition set__to_addresses (v : list string) (o : t) : t :=
{| sendFrom := sendFrom o; subject := subject o; smtp_server := smtp_server o;
   _to_addresses := v; _cc_addresses := _cc_addresses o;
   _bcc_addresses := _bcc_addresses o; _recipients := _recipients o;
   _smtp_message := _smtp_message o; _html_header := _html_header o;
   _text_parts := _text_parts o; _html_parts := _html_parts o |}.

Definition set__cc_addresses (v : list string) (o : t) : t :=
{| sendFrom := sendFrom o; subject := subject o; smtp_server := smtp_server o;
   _to_addresses := _to_addresses o; _cc_addresses := v;
   _bcc_addresses := _bcc_addresses o; _recipients := _recipients o;
   _smtp_message := _smtp_message o; _html_header := _html_header o;
   _text_parts := _text_parts o; _html_parts := _html_parts o |}.

Definition set__bcc_addresses (v : list string) (o : t) : t :=
{| sendFrom := sendFrom o; subject := subject o; smtp_server := smtp_server o;
   _to_addresses := _to_addresses o; _cc_addresses := _cc_addresses o;
   _bcc_addresses := v; _recipients := _recipients o;
   _smtp_message := _smtp_message o; _html_header := _html_header o;
   _text_parts := _text_parts o; _html_parts := _html_parts o |}.

Definition set__recipients (v : list string) (o : t) : t :=
{| sendFrom := sendFrom o; subject := subject o; smtp_server := smtp_server o;
   _to_addresses := _to_addresses o; _cc_addresses := _cc_addresses o;
   _bcc_addresses := _bcc_addresses o; _recipients := v;
   _smtp_message := _smtp_message o; _html_header := _html_header o;
   _text_parts := _text_parts o; _html_parts := _html_parts o |}.

Definition set__smtp_message (v : Mime.multipart) (o : t) : t :=
{| sendFrom := sendFrom o; subject := subject o; smtp_server := smtp_server o;
   _to_addresses := _to_addresses o; _cc_addresses := _cc_addresses o;
   _bcc_addresses := _bcc_addresses o; _recipients := _recipients o;
   _smtp_message := v; _html_header := _html_header o;
   _text_parts := _text_parts o; _html_parts := _html_parts o |}.

Definition set__html_header (v : string) (o : t) : t :=
{| sendFrom := sendFrom o; subject := subject o; smtp_server := smtp_server o;
   _to_addresses := _to_addresses o; _cc_addresses := _cc_addresses o;
   _bcc_addresses := _bcc_addresses o; _recipients := _recipients o;
   _smtp_message := _smtp_message o; _html_header := v;
   _text_parts := _text_parts o; _html_parts := _html_parts o |}.

Definition set__text_parts (v : list string) (o : t) : t :=
{| sendFrom := sendFrom o; subject := subject o; smtp_server := smtp_server o;
   _to_addresses := _to_addresses o; _cc_addresses := _cc_addresses o;
   _bcc_addresses := _bcc_addresses o; _recipients := _recipients o;
   _smtp_message := _smtp_message o; _html_header := _html_header o;
   _text_parts := v; _html_parts := _html_parts o |}.

Definition set__html_parts (v : list string) (o : t) : t :=
{| sendFrom := sendFrom o; subject := subject o; smtp_server := smtp_server o;
   _to_addresses := _to_addresses o; _cc_addresses := _cc_addresses o;
   _bcc_addresses := _bcc_addresses o; _recipients := _recipients o;
   _smtp_message := _smtp_message o; _html_header := _html_header o;
   _text_parts := _text_parts o; _html_parts := v |}.

(** The class attribute holding the built-in stylesheet. *)
Definition _template_html_header : string :=
  Py.join nl [
    " ";
    "        <style type=" +s+ dq +s+ "text/css" +s+ dq +s+ ">";
    "";
    "        .ExternalClass {";
    "            width: 100%;";
    "        }";
    "        .ExternalClass, .ExternalClass p, .ExternalClass span, .ExternalClass font, .ExternalClass td, .ExternalClass ";
    "        div { line-height: 100%; }";
    "";
    "        body {";
    "            -webkit-text-size-adjust: none;";
    "            -ms-text-size-adjust: none;";
    "        }";
    "        /* Prevents Webkit and Windows Mobile platforms from changing default font sizes. */";
    "";
    "        * {";
    "            font-family: Arial, Helvetica, sans-serif;";
    "            font-size: 14px;";
    "        }";
    "";
    "        html,";
    "        body {";
    "            margin: 0;";
    "            padding: 0;";
    "            border: 0;";
    "            outline: 0;";
    "        }";
    "        /* Resets all body margins and padding to 0 for good measure */";
    "";
    "        table td {";
    "            border-collapse: collapse;";
    "            border-spacing: 0px;";
    "            border: 1px solid;";
    "            vertical-align: top;";
    "            padding: 2px;";
    "        }";
    "";
    "        body,";
    "        #body_style {";
    "            background: #fff;";
    "            min-height: 1000px;";
    "            color: #000;";
    "            font-family: Calibri, Arial, Helvetica, sans-serif;";
    "            font-size: 12px;";
    "        }";
    "";
    "        html,";
    "        body {";
    "            line-height: 1.2;";
    "        }";
    "        h1,";
    "        h2,";
    "        h3,";
    "        h4,";
    "        h5,";
    "        h6,";
    "        p,";
    "        i,";
    "        b,";
    "        a,";
    "        ul,";
    "        li,";
    "        blockquote,";
    "        hr,";
    "        img,";
    "        div,";
    "        span,";
    "        strong {";
    "            font-family: Calibri, Arial, Helvetica, sans-serif;";
    "            line-height: 1.2;";
    "            margin:0;";
    "            padding:0;";
    "            margin-top:1.5em;";
    "        }";
    "        h1,";
    "        h2,";
    "        h3,";
    "        h4,";
    "        h5,";
    "        h6 {";
    "            font-family: Calibri, Arial, Helvetica, sans-serif;";
    "            font-size: 18px;";
    "            color: black;";
    "        }";
    "        h1 {";
    "            font-family: Calibri, Arial, Helvetica, sans-serif;";
    "            font-size: 24px;";
    "            color: black;";
    "        }";
    "        /* A more sensible default for H1s */";
    "";
    "        a,";
    "        a:link {";
    "            color: #2A5DB0;";
    "            text-decoration: underline;";
    "        }";
    "";
    "        img {";
    "            display: block;";
    "            border: 0 none;";
    "            outline: none;";
    "            line-height: 100%;";
    "            outline: none;";
    "            text-decoration: none;";
    "            vertical-align: bottom;";
    "        }";
    "        a img {";
    "            border: 0 none;";
    "        }";
    "";
    "        small {";
    "            font-size: 11px;";
    "            line-height: 1.4;";
    "        }";
    "        small a {";
    "            color: inherit;";
    "            text-decoration: underline;";
    "        }";
    "        span.yshortcuts {";
    "            color: #000;";
    "            background-color: none;";
    "            border: none;";
    "        }";
    "        span.yshortcuts:hover,";
    "        span.yshortcuts:active,";
    "        span.yshortcuts:focus {";
    "            color: #000;";
    "            background-color: none;";
    "            border: none;";
    "        }";
    "";
    "        /*Optional:*/";
    "";
    "        a:visited {";
    "            color: #3c96e2;";
    "            text-decoration: none";
    "        }";
    "        a:focus {";
    "            color: #3c96e2;";
    "            text-decoration: underline";
    "        }";
    "        a:hover {";
    "            color: #3c96e2;";
    "            text-decoration: underline";
    "        }";
    "        </style>";
    "        "
  ].

(** *** Methods that only mutate the builder *)

Definition add_to_line_address (address : string) (self : t) : t :=
let self := set__to_addresses (_to_addresses self ++ Py.split Py.comma address) self in
set__recipients (_recipients self ++ Py.split Py.comma address) self.

Definition add_cc_line_address (address : string) (self : t) : t :=
let self := set__cc_addresses (_cc_addresses self ++ Py.split Py.comma address) self in
set__recipients (_recipients self ++ Py.split Py.comma address) self.

Definition add_bcc_line_address (address : string) (self : t) : t :=
let self := set__bcc_addresses (_bcc_addresses self ++ Py.split Py.comma address) self in
set__recipients (_recipients self ++ Py.split Py.comma address) self.

Definition add_plain_text (plain_text : string) (self : t) : t :=
set__text_parts (_text_parts self ++ [plain_text]) self.

(** [style_text = None] is the default of the optional parameter. *)
Definition add_html_text (html_text : string) (style_text : option string) (self : t) : t :=
let self :=
  if Py.str_is_empty (_html_header self) then
    match style_text with
    | None => set__html_header _template_html_header self
    | Some style => set__html_header style self
    end
  else self in
set__html_parts (_html_parts self ++ [html_text]) self.

(** The property setters: [value.copy()] replaces the list, then the new
    list is appended to [_recipients]. *)
Definition to_addresses_setter (value : list string) (self : t) : t :=
let self := set__to_addresses value self in
set__recipients (_recipients self ++ _to_addresses self) self.

Definition cc_addresses_setter (value : list string) (self : t) : t :=
let self := set__cc_addresses value self in
set__recipients (_recipients self ++ _cc_addresses self) self.

Definition bcc_addresses_setter (value : list string) (self : t) : t :=
let self := set__bcc_addresses value self in
set__recipients (_recipients self ++ _bcc_addresses self) self.

(** *** The constructor *)

(** The attribute defaults, before the positional arguments are looked at. *)
Definition init_properties : t :=
{| sendFrom := "do-not-reply@somewhere.org";
   subject := "";
   smtp_server := "smtp.host.address";
   _to_addresses := [];
   _cc_addresses := [];
   _bcc_addresses := [];
   _recipients := [];
   _smtp_message := Mime.MIMEMultipart "alternative";
   _html_header := "";
   _text_parts := [];
   _html_parts := [] |}.

(** The loop [for i in range(0, len(args))] with its chain on [i]; the loop
    state is the builder with the locals [to_list] and [bcc_list]. *)
Definition init_state : Type := (t * option (list string) * option (list string))%type.

Definition init_arg (i : nat) (arg : string) (st : init_state) : init_state :=
let '(self, to_list, bcc_list) := st in
match i with
| 0 => (add_plain_text arg self, to_list, bcc_list)
| 1 => (add_html_text arg None self, to_list, bcc_list)
| 2 => (set_subject arg self, to_list, bcc_list)
| 3 => (self, Some (Py.split Py.comma arg), bcc_list)
| 4 => (self, to_list, Some (Py.split Py.comma arg))
| 5 => (set_sendFrom arg self, to_list, bcc_list)
| 6 => (set_smtp_server arg self, to_list, bcc_list)
| _ => st
end.

Fixpoint init_loop (i : nat) (args : list string) (st : init_state) : init_state :=
match args with
| [] => st
| arg :: rest => init_loop (S i) rest (init_arg i arg st)
end.

(** The constructor, called with the positional arguments [args]. *)
Definition __init__ (args : list string) : t :=
let '(self, to_list, bcc_list) := init_loop 0 args (init_properties, None, None) in
let self :=
  match to_list with
  | None | Some [] => self
  | Some to_list => set__to_addresses to_list (set__recipients to_list self)
  end in
match bcc_list with
| None | Some [] => self
| Some bcc_list =>
    set__bcc_addresses bcc_list (set__recipients (_recipients self ++ bcc_list) self)
end.

(** *** Methods with effects

    The state is the builder together with the log of transport calls made
    so far.  A raised exception leaves the state as it was at the [raise]:
    mutations made before it stay. *)

Record world : Type := {
self : t;
outbox : list delivery
}.

Definition M (A : Type) : Type := world -> (exn + A) * world.

Definition ret {A} (a : A) : M A := fun w => (inr a, w).

Definition bind {A B} (m : M A) (k : A -> M B) : M B :=
fun w => match m w with
         | (inl e, w') => (inl e, w')
         | (inr a, w') => k a w'
         end.

Definition raise {A} (e : exn) : M A := fun w => (inl e, w).

Definition get_self : M t := fun w => (inr (self w), w).

(** Run a mutator on [self]. *)
Definition mutate (f : t -> t) : M unit :=
fun w => (inr tt, {| self := f (self w); outbox := outbox w |}).

(** [if cond: body] *)
Definition when (cond : bool) (body : M unit) : M unit :=
if cond then body else ret tt.

Notation "x <- m ;; k" := (bind m (fun x => k))
  (at level 61, m at next level, right associativity).
Notation "m ;;; k" := (bind m (fun _ => k))
  (at level 61, right associativity).

(** [with open(file_path, "rb") as attachment: ... attachment.read()] *)
Definition open_rb (env : Env) (file_path : string) : M string :=
match read_bytes env file_path with
| Some data => ret data
| None => raise (OSError file_path)
end.

(** [smtplib.SMTP(host)]: the session is opened, or the constructor raises
    and the [with] block is not entered. *)
Definition SMTP (env : Env) (host : string) : M unit :=
match session_error env host with
| Some e => raise (LibraryError e)
| None => ret tt
end.

(** Leaving the [with] block, normally or by an exception: [__exit__] sends
    QUIT and closes; an error of its own replaces the outcome of the block. *)
Definition SMTP_exit (env : Env) (host : string) (block : M unit) : M unit :=
fun w =>
  match block w with
  | (outcome, w') =>
      match quit_error env host with
      | Some e => (inl (LibraryError e), w')
      | None => (outcome, w')
      end
  end.

(** [msg.as_string()]: the document, or the library's error. *)
Definition as_string (env : Env) (msg : Mime.multipart) : M Mime.multipart :=
match as_string_error env msg with
| Some e => raise (LibraryError e)
| None => ret msg
end.

(** [s.sendmail(from, to, document)]: the call is logged, then fails or not
    as the environment decides. *)
Definition sendmail (env : Env) (d : delivery) : M unit :=
fun w =>
  let w' := {| self := self w; outbox := outbox w ++ [d] |} in
  match smtp_error env d with
  | Some e => (inl (LibraryError e), w')
  | None => (inr tt, w')
  end.

(** The part [attach_file] builds from the file name and the bytes read:
    [MIMEBase("application", "octet-stream")], [set_payload], [encode_base64]
    (which also sets the transfer-encoding field), then the disposition. *)
Definition file_part (file_name data : string) : Mime.part :=
{| Mime.maintype := "application"; Mime.subtype := "octet-stream";
   Mime.body := Mime.Base64 data;
   Mime.part_headers :=
     [("Content-Transfer-Encoding", "base64");
      ("Content-Disposition", "attachment; filename= " +s+ file_name)] |}.

Definition attach_file (env : Env) (file_path : string) : M unit :=
let file_name := Py.basename file_path in
data <- open_rb env file_path ;;
mutate (fun self =>
  set__smtp_message (Mime.attach (file_part file_name data) (_smtp_message self)) self).

Definition no_to_line : string :=
  "An SMTP message must have a To: line address to be sent.".
Definition no_from_line : string :=
  "An SMTP message must have a From: line address to be sent.".
Definition no_smtp_host : string :=
  "An SMTP message must have an SMTP host address to be sent.".

(** The attributes are typed [str] and [List[str]]: the [is None] halves of
    the three checks never hold and only the length tests are kept.  In the
    last statement the session is opened first; inside the block the
    arguments of [sendmail] are evaluated, [as_string()] among them, then
    [sendmail] is called; then the block is left.  A failure of the session
    or of [as_string] leaves no call made. *)
Definition send_email (env : Env) (enable_subj_timestamp : bool) : M unit :=
me <- get_self ;;
when (Py.list_is_empty (_to_addresses me)) (raise (Exception no_to_line)) ;;;
when (Py.str_is_empty (sendFrom me)) (raise (Exception no_from_line)) ;;;
when (Py.str_is_empty (smtp_server me)) (raise (Exception no_smtp_host)) ;;;
let timestamp_str := Py.strftime_Ymd_HM (localtime env) in
when enable_subj_timestamp
  (mutate (fun self => set_subject (subject self +s+ " " +s+ timestamp_str) self)) ;;;
mutate (fun self =>
  set__smtp_message (Mime.set_header "Subject" (subject self) (_smtp_message self)) self) ;;;
mutate (fun self =>
  set__smtp_message (Mime.set_header "From" (sendFrom self) (_smtp_message self)) self) ;;;
mutate (fun self =>
  set__smtp_message
    (Mime.set_header "To" (Py.join "," (_to_addresses self)) (_smtp_message self)) self) ;;;
me <- get_self ;;
when (negb (Py.list_is_empty (_cc_addresses me)))
  (mutate (fun self =>
     set__smtp_message
       (Mime.set_header "Cc" (Py.join "," (_cc_addresses self)) (_smtp_message self)) self)) ;;;
me <- get_self ;;
when (negb (Py.list_is_empty (_text_parts me)))
  (let text_part := Mime.MIMEText (Py.join nl (_text_parts me)) "plain" in
   mutate (fun self => set__smtp_message (Mime.attach text_part (_smtp_message self)) self)) ;;;
me <- get_self ;;
when (negb (Py.list_is_empty (_html_parts me)))
  (let html_part :=
     Mime.MIMEText (_html_header me +s+ "<BR>" +s+ Py.join "" (_html_parts me)) "html" in
   mutate (fun self => set__smtp_message (Mime.attach html_part (_smtp_message self)) self)) ;;;
me <- get_self ;;
SMTP env (smtp_server me) ;;;
SMTP_exit env (smtp_server me)
  (document <- as_string env (_smtp_message me) ;;
   sendmail env {| host := smtp_server me; envelope_from := sendFrom me;
                   envelope_to := _recipients me; document := document |}).

End SmtpSender.

(* ================================================================== *)
(** ** Top-level function [send_email_message] *)

Import SmtpSender.

Definition to_not_recognized : string := "Address list for To line not recognized".
Definition cc_not_recognized : string := "Address list for Cc line not recognized".
Definition bcc_not_recognized : string := "BCC address list not recognized".

(** The body after [msg = SmtpSender()]; [self] of the state is [msg]. *)
Definition send_email_message_body (env : Env)
  (to_addresses : Py.value) (subject html_text : string)
  (style from_address : option string) (cc_addresses bcc_addresses : Py.value) : M unit :=
to_list <- match to_addresses with
           | Py.VStr s => ret (Py.split Py.comma s)
           | Py.VList l => ret l
           | _ => raise (Exception to_not_recognized)
           end ;;
mutate (to_addresses_setter to_list) ;;;
match cc_addresses with
| Py.VNone => ret tt
| Py.VStr s => mutate (cc_addresses_setter (Py.split Py.comma s))
| Py.VList l => mutate (cc_addresses_setter l)
| _ => raise (Exception cc_not_recognized)
end ;;;
match bcc_addresses with
| Py.VNone => ret tt
| Py.VStr s => mutate (bcc_addresses_setter (Py.split Py.comma s))
| Py.VList l => mutate (bcc_addresses_setter l)
| _ => raise (Exception bcc_not_recognized)
end ;;;
match from_address with
| None => ret tt
| Some a => mutate (set_sendFrom a)
end ;;;
mutate (set_subject subject) ;;;
mutate (add_html_text html_text style) ;;;
send_email env true.

(** The whole function, started with the transport log [sent]: it returns
    what it raised, the transient builder [msg] as it was left, and the log. *)
Definition send_email_message (env : Env)
  (to_addresses : Py.value) (subject html_text : string)
  (style from_address : option string) (cc_addresses bcc_addresses : Py.value)
  (sent : list delivery) : (exn + unit) * world :=
send_email_message_body env to_addresses subject html_text style from_address
  cc_addresses bcc_addresses {| self := __init__ []; outbox := sent |}.

(* ================================================================== *)
(** ** Sequences of calls on one builder *)

(** A call a client can make on a builder. *)
Inductive call : Type :=
| Add_to_line_address (address : string)
| Add_cc_line_address (address : string)
| Add_bcc_line_address (address : string)
| Add_plain_text (plain_text : string)
| Add_html_text (html_text : string) (style_text : option string)
| Attach_file (file_path : string)
| Set_to_addresses (value : list string)
| Set_cc_addresses (value : list string)
| Set_bcc_addresses (value : list string)
| Set_sendFrom (value : string)
| Set_subject (value : string)
| Set_smtp_server (value : string)
| Send_email (enable_subj_timestamp : bool).

Definition perform (env : Env) (c : call) : M unit :=
match c with
| Add_to_line_address a => mutate (add_to_line_address a)
| Add_cc_line_address a => mutate (add_cc_line_address a)
| Add_bcc_line_address a => mutate (add_bcc_line_address a)
| Add_plain_text x => mutate (add_plain_text x)
| Add_html_text x style => mutate (add_html_text x style)
| Attach_file p => attach_file env p
| Set_to_addresses l => mutate (to_addresses_setter l)
| Set_cc_addresses l => mutate (cc_addresses_setter l)
| Set_bcc_addresses l => mutate (bcc_addresses_setter l)
| Set_sendFrom v => mutate (set_sendFrom v)
| Set_subject v => mutate (set_subject v)
| Set_smtp_server v => mutate (set_smtp_server v)
| Send_email b => send_email env b
end.

(** A client script: each call in the environment it runs in.  A call
    that raises leaves its state behind and the script goes on (the client
    caught the exception). *)
Fixpoint run (script : list (Env * call)) (w : world) : world :=
match script with
| [] => w
| (env, c) :: rest => run rest (snd (perform env c w))
end.

(** A builder straight from the constructor, nothing sent yet. *)
Definition fresh (args : list string) : world :=
{| self := __init__ args; outbox := [] |}.

Definition is_send (c : call) : bool :=
match c with Send_email _ => true | _ => false end.

(** No [send_email] in the script. *)
Definition never_sent (script : list (Env * call)) : bool :=
forallb (fun ec => negb (is_send (snd ec))) script.

(* ================================================================== *)
(** ** Vocabulary of the statements

    Functions and predicates the properties below are stated with; none of
    them is part of the Python module. *)

(** The straight-line part of [send_email], after the three checks and up
    to the transport call, as a function on the builder. *)
Definition rendered (env : Env) (enable_subj_timestamp : bool) (s : t) : t :=
  let s := if enable_subj_timestamp
           then set_subject (subject s +s+ " " +s+ Py.strftime_Ymd_HM (localtime env)) s
           else s in
  let s := set__smtp_message (Mime.set_header "Subject" (subject s) (_smtp_message s)) s in
  let s := set__smtp_message (Mime.set_header "From" (sendFrom s) (_smtp_message s)) s in
  let s := set__smtp_message
             (Mime.set_header "To" (Py.join "," (_to_addresses s)) (_smtp_message s)) s in
  let s := if Py.list_is_empty (_cc_addresses s) then s
           else set__smtp_message
                  (Mime.set_header "Cc" (Py.join "," (_cc_addresses s)) (_smtp_message s)) s in
  let s := if Py.list_is_empty (_text_parts s) then s
           else set__smtp_message
                  (Mime.attach (Mime.MIMEText (Py.join nl (_text_parts s)) "plain")
                     (_smtp_message s)) s in
  if Py.list_is_empty (_html_parts s) then s
  else set__smtp_message
         (Mime.attach
            (Mime.MIMEText (_html_header s +s+ "<BR>" +s+ Py.join "" (_html_parts s)) "html")
            (_smtp_message s)) s.

(** The transport call [send_email] makes for a builder in state [s]. *)
Definition envelope (s : t) : delivery :=
  {| host := smtp_server s; envelope_from := sendFrom s;
     envelope_to := _recipients s; document := _smtp_message s |}.

(** The header fields one [send_email] sets, in order. *)
Definition fields_set (subj : string) (s : t) : list Mime.header :=
  [("Subject", subj); ("From", sendFrom s); ("To", Py.join "," (_to_addresses s))]
  ++ (if Py.list_is_empty (_cc_addresses s) then []
      else [("Cc", Py.join "," (_cc_addresses s))]).

(** The body parts one [send_email] attaches, in order. *)
Definition body_parts (s : t) : list Mime.part :=
  (if Py.list_is_empty (_text_parts s) then []
   else [Mime.MIMEText (Py.join nl (_text_parts s)) "plain"])
  ++ (if Py.list_is_empty (_html_parts s) then []
      else [Mime.MIMEText (_html_header s +s+ "<BR>" +s+ Py.join "" (_html_parts s)) "html"]).

(** The last statement of [send_email] for the call [d]: open the session,
    serialise the document, call [sendmail], leave the block. *)
Definition deliver (env : Env) (d : delivery) : M unit :=
  SMTP env (host d) ;;;
  SMTP_exit env (host d) (_ <- as_string env (document d) ;; sendmail env d).

(** What [send_email] raises or returns once validation has passed: the
    error of opening the session; else the error of closing it; else the
    error of the serialiser; else the error of [sendmail]; else nothing. *)
Definition outcome (env : Env) (d : delivery) : exn + unit :=
  match session_error env (host d) with
  | Some e => inl (LibraryError e)
  | None =>
      match quit_error env (host d) with
      | Some e => inl (LibraryError e)
      | None =>
          match as_string_error env (document d) with
          | Some e => inl (LibraryError e)
          | None =>
              match smtp_error env d with
              | Some e => inl (LibraryError e)
              | None => inr tt
              end
          end
      end
  end.

(** The session opens and the document serialises: [d] reaches [sendmail]. *)
Definition handed_over (env : Env) (d : delivery) : bool :=
  match session_error env (host d) with
  | Some _ => false
  | None =>
      match as_string_error env (document d) with
      | Some _ => false
      | None => true
      end
  end.

(** A line feed or a carriage return in a string. *)
Definition has_line_break (s : string) : bool :=
  existsb (fun c => Ascii.eqb c (ascii_of_nat 10) || Ascii.eqb c (ascii_of_nat 13))
    (list_ascii_of_string s).

(** A line break in a header value of the message or of one of its parts. *)
Definition breaks_a_header (m : Mime.multipart) : bool :=
  existsb (fun h => has_line_break (snd h)) (Mime.headers m)
  || existsb (fun p => existsb (fun h => has_line_break (snd h)) (Mime.part_headers p))
       (Mime.parts m).

(** A serialiser on the safe side of the library: it refuses every message
    with a line break in a header value (the library refuses those among them
    that would start a new line of the header). *)
Definition strict_as_string_error (m : Mime.multipart) : option library_error :=
  if breaks_a_header m
  then Some {| class_name := "HeaderWriteError";
               message := "folded header contains newline" |}
  else None.

(** A quiet environment for examples: one readable file, a fixed clock, a
    host that opens sessions and accepts every call, the strict serialiser. *)
Definition example_env : Env :=
  {| read_bytes := fun p => if String.eqb p "reports/test_attachment.jpg"
                            then Some "JFIF" else None;
     localtime := {| Py.tm_year := 2024; Py.tm_mon := 3; Py.tm_mday := 5;
                     Py.tm_hour := 9; Py.tm_min := 7 |};
     session_error := fun _ => None;
     as_string_error := strict_as_string_error;
     smtp_error := fun _ => None;
     quit_error := fun _ => None |}.

(** The three preconditions of [send_email]. *)
Definition valid (s : t) : Prop :=
  _to_addresses s <> [] /\ sendFrom s <> "" /\ smtp_server s <> "".

(** The shape [YYYY-MM-DD HH:MM]: a digit or a given character per position. *)
Inductive position : Type :=
| Digit
| Lit (c : ascii).

(** [0] to [9] *)
Definition is_digit (c : ascii) : bool :=
  Nat.leb 48 (nat_of_ascii c) && Nat.leb (nat_of_ascii c) 57.

Fixpoint has_shape (shape : list position) (s : string) : bool :=
  match shape, s with
  | [], EmptyString => true
  | Digit :: shape', String c s' => is_digit c && has_shape shape' s'
  | Lit l :: shape', String c s' => Ascii.eqb c l && has_shape shape' s'
  | _, _ => false
  end.

Definition YYYY_MM_DD_HH_MM : list position :=
  [Digit; Digit; Digit; Digit; Lit "-"; Digit; Digit; Lit "-"; Digit; Digit;
   Lit " "; Digit; Digit; Lit ":"; Digit; Digit]%char.

(** A clock reading as [time.localtime()] gives it, with a four-digit year. *)
Definition clock_reading (tm : Py.struct_time) : Prop :=
  (1000 <= Py.tm_year tm <= 9999 /\ 1 <= Py.tm_mon tm <= 12 /\
   1 <= Py.tm_mday tm <= 31 /\ 0 <= Py.tm_hour tm <= 23 /\ 0 <= Py.tm_min tm <= 59)%Z.

(** A later clock reading, and a server that drops the session during
    [sendmail] ([SMTPServerDisconnected]). *)
Definition later_env : Env :=
  {| read_bytes := read_bytes example_env;
     localtime := {| Py.tm_year := 2024; Py.tm_mon := 12; Py.tm_mday := 31;
                     Py.tm_hour := 23; Py.tm_min := 59 |};
     session_error := fun _ => None;
     as_string_error := strict_as_string_error;
     smtp_error := fun _ => Some {| class_name := "SMTPServerDisconnected";
                                    message := "Connection unexpectedly closed" |};
     quit_error := fun _ => None |}.


(** The addresses a call hands to the recipients list. *)
Definition contributed (c : call) : list string :=
  match c with
  | Add_to_line_address a | Add_cc_line_address a | Add_bcc_line_address a =>
      Py.split Py.comma a
  | Set_to_addresses l | Set_cc_addresses l | Set_bcc_addresses l => l
  | _ => []
  end.

(** Throughout the argument loop the message is the empty multipart and the
    address lists are empty: the loop only records [to_list] and [bcc_list]. *)
Definition init_inv (st : init_state) : Prop :=
  let '(s, _, _) := st in
  _smtp_message s = Mime.MIMEMultipart "alternative" /\
  _to_addresses s = [] /\ _cc_addresses s = [] /\ _bcc_addresses s = [] /\
  _recipients s = [].

(** No Bcc field on the message, and every Bcc address among the
    recipients. *)
Definition bcc_hidden (s : t) : Prop :=
  Mime.get_all "Bcc" (_smtp_message s) = [] /\ incl (_bcc_addresses s) (_recipients s).

(** The part a call attaches to the message when it is not a send. *)
Definition attached (ec : Env * call) : list Mime.part :=
  match snd ec with
  | Attach_file p =>
      match read_bytes (fst ec) p with
      | Some data => [file_part (Py.basename p) data]
      | None => []
      end
  | _ => []
  end.

(** The Bcc addresses a call supplies. *)
Definition bcc_supplied (c : call) : list string :=
  match c with
  | Add_bcc_line_address a => Py.split Py.comma a
  | Set_bcc_addresses l => l
  | _ => []
  end.

(** Body first: the plain-text part if there is one, then the HTML part if
    there is one, then attachments only. *)
Definition text_html_then_files (ps : list Mime.part) : bool :=
  let ps := match ps with
            | p :: rest => if Mime.is_text "plain" p then rest else ps
            | [] => []
            end in
  let ps := match ps with
            | p :: rest => if Mime.is_text "html" p then rest else ps
            | [] => []
            end in
  forallb Mime.is_attachment ps.

(** The content type of a part, [maintype/subtype]. *)
Definition part_type (p : Mime.part) : string := Mime.maintype p +s+ "/" +s+ Mime.subtype p.

(** The plain fragment a call adds. *)
Definition plain_fragment (c : call) : list string :=
  match c with
  | Add_plain_text x => [x]
  | _ => []
  end.

(** A run of [add_html_text] calls, each with its fragment and its optional
    style. *)
Definition add_html_calls (calls : list (string * option string)) (s : t) : t :=
  fold_left (fun s c => add_html_text (fst c) (snd c) s) calls s.

(** The stylesheet a call offers: its style, or the built-in one. *)
Definition style_offered (style_text : option string) : string :=
  match style_text with
  | None => _template_html_header
  | Some style => style
  end.

Fixpoint first_nonempty (l : list string) : string :=
  match l with
  | [] => ""
  | x :: rest => if Py.str_is_empty x then first_nonempty rest else x
  end.

(** [type(v) is str] or [type(v) is list] *)
Definition is_str_or_list (v : Py.value) : bool :=
  match v with
  | Py.VStr _ | Py.VList _ => true
  | _ => false
  end.

(** The same, or [None]: what the optional Cc and Bcc parameters accept
    ([None] being their default, the parameter left out). *)
Definition is_str_or_list_or_none (v : Py.value) : bool :=
  match v with
  | Py.VOther _ => false
  | _ => true
  end.

(** The list an accepted address argument stands for. *)
Definition address_list (v : Py.value) : list string :=
  match v with
  | Py.VStr s => Py.split Py.comma s
  | Py.VList l => l
  | _ => []
  end.

(** The transient builder as [send_email_message] has set it up when it
    reaches [msg.send_email()]. *)
Definition prepared (to_addresses : Py.value) (subj html_text : string)
  (style from_address : option string) (cc_addresses bcc_addresses : Py.value) : t :=
  let msg := to_addresses_setter (address_list to_addresses) (__init__ []) in
  let msg := match cc_addresses with
             | Py.VNone => msg
             | v => cc_addresses_setter (address_list v) msg
             end in
  let msg := match bcc_addresses with
             | Py.VNone => msg
             | v => bcc_addresses_setter (address_list v) msg
             end in
  let msg := match from_address with
             | None => msg
             | Some a => set_sendFrom a msg
             end in
  add_html_text html_text style (set_subject subj msg).

(** The calls that build, on a builder constructed without arguments, what
    the seven positional arguments of the constructor build. *)
Definition legacy_calls (txt html subj sendTo bcc from srv : string) : list call :=
  [Add_plain_text txt; Add_html_text html None; Set_subject subj;
   Add_to_line_address sendTo; Add_bcc_line_address bcc;
   Set_sendFrom from; Set_smtp_server srv].

(** A script of calls that all run in one environment. *)
Definition in_env (env : Env) (calls : list call) : list (Env * call) :=
  map (pair env) calls.

(** A bulk assignment of one of the three address lists. *)
Definition is_bulk_set (c : call) : bool :=
  match c with
  | Set_to_addresses _ | Set_cc_addresses _ | Set_bcc_addresses _ => true
  | _ => false
  end.

(** No bulk assignment in the script. *)
Definition no_bulk_set (script : list (Env * call)) : bool :=
  forallb (fun ec => negb (is_bulk_set (snd ec))) script.

(** The number of commas in a string. *)
Fixpoint count_commas (s : string) : nat :=
  match s with
  | EmptyString => 0
  | String c rest => (if Ascii.eqb c Py.comma then 1 else 0) + count_commas rest
  end.

(** A string with a slash in it. *)
Definition has_slash (s : string) : bool :=
  existsb (Ascii.eqb Py.slash) (list_ascii_of_string s).

(** Every address of the three lists is a recipient, and the recipients
    are at least as many as the three lists together. *)
Definition listed_are_recipients (s : t) : Prop :=
  incl (_to_addresses s) (_recipients s)
  /\ incl (_cc_addresses s) (_recipients s)
  /\ incl (_bcc_addresses s) (_recipients s)
  /\ List.length (_to_addresses s) + List.length (_cc_addresses s)
      + List.length (_bcc_addresses s) <= List.length (_recipients s).

(** The recipients are the three lists, in some order. *)
Definition recipients_are_listed (s : t) : Prop :=
  Permutation (_recipients s) (_to_addresses s ++ _cc_addresses s ++ _bcc_addresses s).

(** No document in the transport log has a Bcc field. *)
Definition bcc_free_log (w : world) : Prop :=
  Forall (fun d => Mime.get_all "Bcc" (document d) = []) (outbox w).

(* ================================================================== *)
(** * Properties *)

(** The stylesheet is only ever compared with the empty string. *)
Opaque _template_html_header.

(** ** Strings *)

Lemma split_not_nil (sep : ascii) (s : string) : Py.split sep s <> [].
Proof.
  destruct s as [|c rest]; simpl; [discriminate|].
  destruct (Ascii.eqb c sep); [discriminate|].
  destruct (Py.split sep rest); discriminate.
Qed.

Lemma split_empty (sep : ascii) : Py.split sep "" = [""].
Proof. reflexivity. Qed.

(** Joining the tokens with the separator gives the string back. *)
Lemma join_split (sep : ascii) (s : string) :
  Py.join (String sep "") (Py.split sep s) = s.
Proof.
  unfold Py.join.
  induction s as [|c rest IH]; [reflexivity|].
  simpl. destruct (Ascii.eqb_spec c sep) as [->|Hne].
  - pose proof (split_not_nil sep rest) as Hnn.
    destruct (Py.split sep rest) as [|tok toks] eqn:E; [contradiction|].
    change (String.concat (String sep "") ("" :: tok :: toks))
      with (String sep (String.concat (String sep "") (tok :: toks))).
    now rewrite IH.
  - pose proof (split_not_nil sep rest) as Hnn.
    destruct (Py.split sep rest) as [|tok toks] eqn:E; [contradiction|].
    destruct toks as [|tok' toks'].
    + simpl in *. now rewrite IH.
    + change (String.concat (String sep "") (String c tok :: tok' :: toks'))
        with (String c (tok +s+ String sep "" +s+ String.concat (String sep "") (tok' :: toks'))).
      change (String.concat (String sep "") (tok :: tok' :: toks'))
        with (tok +s+ String sep "" +s+ String.concat (String sep "") (tok' :: toks')) in IH.
      now rewrite IH.
Qed.

Lemma list_is_empty_true {A} (l : list A) : Py.list_is_empty l = true <-> l = [].
Proof. destruct l; simpl; split; congruence. Qed.

Lemma str_is_empty_true (s : string) : Py.str_is_empty s = true <-> s = "".
Proof. destruct s; simpl; split; congruence. Qed.

(** ** [send_email], one equation *)

Lemma send_email_eq (env : Env) (enable : bool) (w : world) :
  send_email env enable w =
  if Py.list_is_empty (_to_addresses (self w)) then (inl (Exception no_to_line), w)
  else if Py.str_is_empty (sendFrom (self w)) then (inl (Exception no_from_line), w)
  else if Py.str_is_empty (smtp_server (self w)) then (inl (Exception no_smtp_host), w)
  else deliver env (envelope (rendered env enable (self w)))
         {| self := rendered env enable (self w); outbox := outbox w |}.
Proof.
  destruct w as [s ob]. destruct s as [from subj srv to cc bcc rcpt msg hdr txt html].
  cbn [self outbox _to_addresses sendFrom smtp_server Py.list_is_empty Py.str_is_empty].
  destruct to as [|a to']; [reflexivity|].
  destruct from as [|c from']; [reflexivity|].
  destruct srv as [|c' srv']; [reflexivity|].
  destruct env as [rb lt se ae sm qe].
  destruct enable, cc, txt, html;
    cbv -[Py.strftime_Ymd_HM Py.join String.append app];
    (destruct (se _); [reflexivity|]);
    destruct (ae _); try destruct (sm _); destruct (qe _); reflexivity.
Qed.

(** [rendered] branches on the flag and on three lists being empty: split a
    goal about [rendered env enable s] into those cases. *)
Ltac by_rendered_cases s enable :=
  destruct s as [? ? ? ? [|? ?] ? ? ? ? [|? ?] [|? ?]]; destruct enable.

(** What [rendered] changes and what it keeps. *)
Lemma rendered_subject env enable s :
  subject (rendered env enable s) =
  if enable then subject s +s+ " " +s+ Py.strftime_Ymd_HM (localtime env) else subject s.
Proof.
  by_rendered_cases s enable; reflexivity.
Qed.

Lemma rendered_kept env enable s :
  sendFrom (rendered env enable s) = sendFrom s /\
  smtp_server (rendered env enable s) = smtp_server s /\
  _to_addresses (rendered env enable s) = _to_addresses s /\
  _cc_addresses (rendered env enable s) = _cc_addresses s /\
  _bcc_addresses (rendered env enable s) = _bcc_addresses s /\
  _recipients (rendered env enable s) = _recipients s /\
  _html_header (rendered env enable s) = _html_header s /\
  _text_parts (rendered env enable s) = _text_parts s /\
  _html_parts (rendered env enable s) = _html_parts s.
Proof.
  by_rendered_cases s enable; repeat split; reflexivity.
Qed.

Lemma rendered_headers env enable s :
  Mime.headers (_smtp_message (rendered env enable s)) =
  Mime.headers (_smtp_message s) ++ fields_set (subject (rendered env enable s)) s.
Proof.
  by_rendered_cases s enable;
    cbv -[Py.strftime_Ymd_HM Py.join String.append app];
    rewrite <- ?app_assoc; reflexivity.
Qed.

Lemma rendered_parts env enable s :
  Mime.parts (_smtp_message (rendered env enable s)) =
  Mime.parts (_smtp_message s) ++ body_parts s.
Proof.
  by_rendered_cases s enable;
    cbv -[Py.strftime_Ymd_HM Py.join String.append app];
    rewrite <- ?app_assoc, ?app_nil_r; reflexivity.
Qed.

(** ** Validation in [send_email] *)

(** The three messages are three different strings. *)
Lemma validation_messages_distinct :
  no_to_line <> no_from_line /\ no_to_line <> no_smtp_host /\ no_from_line <> no_smtp_host.
Proof. repeat split; discriminate. Qed.

(** Splits a goal about [deliver env d w] by what the session, the
    serialiser, [sendmail] and the closing of the session do. *)
Ltac by_delivery env d :=
  unfold deliver, outcome, handed_over, bind, SMTP, SMTP_exit, as_string, sendmail,
    raise, ret;
  destruct (session_error env (host d)); cbn [fst snd self outbox];
  [ | destruct (as_string_error env (document d)), (smtp_error env d),
        (quit_error env (host d)); cbn [fst snd self outbox] ].

(** The session, the serialiser and the transport can fail, but never with
    a plain [Exception]. *)
Lemma deliver_not_Exception env d w m : fst (deliver env d w) <> inl (Exception m).
Proof. by_delivery env d; discriminate. Qed.

(** The call is logged exactly when it reaches [sendmail]. *)
Lemma deliver_outbox env d w :
  outbox (snd (deliver env d w)) = if handed_over env d then outbox w ++ [d] else outbox w.
Proof. by_delivery env d; reflexivity. Qed.

Lemma deliver_self env d w : self (snd (deliver env d w)) = self w.
Proof. by_delivery env d; reflexivity. Qed.


(** From a log that grew by one call to the call that was handed over. *)
Lemma logged_call {A} (b : bool) (l log : list A) (d : A) :
  log = (if b then l ++ [d] else l) ->
  List.length log = S (List.length l) ->
  b = true /\ log = l ++ [d].
Proof.
  intros H Hlen. destruct b; [split; [reflexivity | exact H]|].
  rewrite H in Hlen. lia.
Qed.

(** Closes a goal about the validation errors once the check that raises
    has been reached. *)
Ltac raised_in_validation :=
  split; [split; [intros _; auto | intros _; eexists; reflexivity]|];
  repeat (split; [intros; simpl; congruence|]);
  first [ intros _; reflexivity
        | split; [apply validation_messages_distinct | intros _; reflexivity] ].

(** C5. [send_email] raises one of its validation errors exactly when the
    To list, the From address or the SMTP host is empty; which of the three
    messages it carries is decided by the first empty field in that order,
    the three messages differ, and whenever it is raised the log of
    transport calls is as it was. *)
Theorem send_email_validation_error (env : Env) (enable : bool) (w : world) :
  ((exists m, fst (send_email env enable w) = inl (Exception m)) <->
   (_to_addresses (self w) = [] \/ sendFrom (self w) = "" \/ smtp_server (self w) = ""))
  /\ (_to_addresses (self w) = [] ->
      fst (send_email env enable w) = inl (Exception no_to_line))
  /\ (_to_addresses (self w) <> [] -> sendFrom (self w) = "" ->
      fst (send_email env enable w) = inl (Exception no_from_line))
  /\ (_to_addresses (self w) <> [] -> sendFrom (self w) <> "" -> smtp_server (self w) = "" ->
      fst (send_email env enable w) = inl (Exception no_smtp_host))
  /\ (no_to_line <> no_from_line /\ no_to_line <> no_smtp_host /\ no_from_line <> no_smtp_host)
  /\ ((exists m, fst (send_email env enable w) = inl (Exception m)) ->
      outbox (snd (send_email env enable w)) = outbox w).
Proof.
  pose proof validation_messages_distinct as Hd.
  rewrite send_email_eq.
  destruct (_to_addresses (self w)) as [|a to'] eqn:Eto; cbn [Py.list_is_empty].
  { raised_in_validation. }
  destruct (sendFrom (self w)) as [|c from'] eqn:Efrom; cbn [Py.str_is_empty].
  { raised_in_validation. }
  destruct (smtp_server (self w)) as [|c' srv'] eqn:Esrv; cbn [Py.str_is_empty].
  { raised_in_validation. }
  assert (Hno : ~ exists m, fst (deliver env (envelope (rendered env enable (self w)))
                    {| self := rendered env enable (self w); outbox := outbox w |})
                  = inl (Exception m)).
  { intros [m Hm]. eapply deliver_not_Exception; eassumption. }
  split; [split|].
  - intros H. contradiction.
  - intros [H|[H|H]]; discriminate.
  - repeat (split; [intros; congruence|]). try (split; [exact Hd|]). intros H. contradiction.
Qed.

(** A new builder has no To address; with one, an emptied From address is
    reported; with both, an emptied host.  Nothing reaches the transport. *)
Example validation_errors_in_order :
  send_email example_env true (fresh []) = (inl (Exception no_to_line), fresh [])
  /\ fst (send_email example_env true
            (run [(example_env, Add_to_line_address "a@x");
                  (example_env, Set_sendFrom "");
                  (example_env, Set_smtp_server "")] (fresh [])))
     = inl (Exception no_from_line)
  /\ fst (send_email example_env true
            (run [(example_env, Add_to_line_address "a@x");
                  (example_env, Set_smtp_server "")] (fresh [])))
     = inl (Exception no_smtp_host).
Proof. repeat split; reflexivity. Qed.

(** C9. When one of the three required fields is empty, [send_email] raises
    and leaves the whole state as it found it: the builder (subject, message
    header fields, everything else) and the transport log, whatever the
    timestamp flag. *)
Theorem send_email_invalid_unchanged (env : Env) (enable : bool) (w : world) :
  _to_addresses (self w) = [] \/ sendFrom (self w) = "" \/ smtp_server (self w) = "" ->
  (exists m, fst (send_email env enable w) = inl (Exception m)) /\
  snd (send_email env enable w) = w /\
  subject (self (snd (send_email env enable w))) = subject (self w) /\
  Mime.headers (_smtp_message (self (snd (send_email env enable w)))) =
    Mime.headers (_smtp_message (self w)).
Proof.
  intros H. rewrite send_email_eq.
  destruct (_to_addresses (self w)) as [|a to']; cbn [Py.list_is_empty].
  { split; [eexists; reflexivity | repeat split]. }
  destruct (sendFrom (self w)) as [|c from']; cbn [Py.str_is_empty].
  { split; [eexists; reflexivity | repeat split]. }
  destruct (smtp_server (self w)) as [|c' srv']; cbn [Py.str_is_empty].
  { split; [eexists; reflexivity | repeat split]. }
  destruct H as [H|[H|H]]; discriminate.
Qed.

Lemma send_email_invalid_unchanged_witness :
  let w := run [(example_env, Set_subject "Report")] (fresh []) in
  (exists m, fst (send_email example_env true w) = inl (Exception m)) /\
  snd (send_email example_env true w) = w /\
  subject (self (snd (send_email example_env true w))) = subject (self w) /\
  Mime.headers (_smtp_message (self (snd (send_email example_env true w)))) =
    Mime.headers (_smtp_message (self w)).
Proof.
  apply (send_email_invalid_unchanged example_env true
           (run [(example_env, Set_subject "Report")] (fresh []))).
  left. reflexivity.
Defined.

(** ** Adding the empty string as an address *)

(** C10. [add_to_line_address ""] appends exactly one token, the empty
    string, to the To list and to the recipients, so the To list is no longer
    empty and a following [send_email] does not raise the To-line error; the
    Cc and Bcc methods append the same single empty token to their list and
    to the recipients. *)
Theorem add_empty_address (env : Env) (enable : bool) (s : t) (sent : list delivery) :
  Py.split Py.comma "" = [""]
  /\ _to_addresses (add_to_line_address "" s) = _to_addresses s ++ [""]
  /\ _recipients (add_to_line_address "" s) = _recipients s ++ [""]
  /\ _to_addresses (add_to_line_address "" s) <> []
  /\ fst (send_email env enable {| self := add_to_line_address "" s; outbox := sent |})
       <> inl (Exception no_to_line)
  /\ _cc_addresses (add_cc_line_address "" s) = _cc_addresses s ++ [""]
  /\ _recipients (add_cc_line_address "" s) = _recipients s ++ [""]
  /\ _bcc_addresses (add_bcc_line_address "" s) = _bcc_addresses s ++ [""]
  /\ _recipients (add_bcc_line_address "" s) = _recipients s ++ [""].
Proof.
  assert (Hne : _to_addresses (add_to_line_address "" s) <> []).
  { cbn. intros H. apply app_eq_nil in H. destruct H; discriminate. }
  repeat split; try reflexivity; try exact Hne.
  rewrite send_email_eq. cbn [self outbox].
  destruct (_to_addresses (add_to_line_address "" s)) as [|a l]; [congruence|].
  cbn [Py.list_is_empty].
  destruct (Py.str_is_empty _); [cbn [fst]; discriminate|].
  destruct (Py.str_is_empty _); [cbn [fst]; discriminate|].
  apply deliver_not_Exception.
Qed.

(** ** A send that passes validation *)

Lemma send_email_pass (env : Env) (enable : bool) (w : world) :
  valid (self w) ->
  send_email env enable w =
  deliver env (envelope (rendered env enable (self w)))
    {| self := rendered env enable (self w); outbox := outbox w |}.
Proof.
  intros (Hto & Hfrom & Hsrv). rewrite send_email_eq.
  destruct (_to_addresses (self w)); [congruence|].
  destruct (sendFrom (self w)); [congruence|].
  destruct (smtp_server (self w)); [congruence|].
  reflexivity.
Qed.

Lemma send_email_pass_self env enable w :
  valid (self w) -> self (snd (send_email env enable w)) = rendered env enable (self w).
Proof. intros H. rewrite send_email_pass by assumption. now rewrite deliver_self. Qed.

Lemma send_email_pass_outbox env enable w :
  valid (self w) ->
  outbox (snd (send_email env enable w)) =
  if handed_over env (envelope (rendered env enable (self w)))
  then outbox w ++ [envelope (rendered env enable (self w))]
  else outbox w.
Proof. intros H. rewrite send_email_pass by assumption. now rewrite deliver_outbox. Qed.

Lemma rendered_valid env enable s : valid s -> valid (rendered env enable s).
Proof.
  unfold valid. destruct (rendered_kept env enable s) as (-> & -> & -> & _). auto.
Qed.

(** ** The subject timestamp *)

Lemma is_digit_digit (d : Z) : (0 <= d < 10)%Z -> is_digit (Py.digit d) = true.
Proof.
  intros H.
  assert (Hn : exists k, Z.to_nat d = k /\ k < 10) by (eexists; split; [reflexivity|lia]).
  destruct Hn as (k & Hk & Hlt). unfold Py.digit. rewrite Hk.
  do 10 (destruct k as [|k]; [reflexivity|]). lia.
Qed.

Lemma decimal_aux_last fuel n acc :
  (n < 10)%Z -> Py.decimal_aux (S fuel) n acc = String (Py.digit (n mod 10)) acc.
Proof.
  intros H. cbn [Py.decimal_aux]. apply Z.ltb_lt in H. now rewrite H.
Qed.

Lemma decimal_aux_more fuel n acc :
  (10 <= n)%Z ->
  Py.decimal_aux (S fuel) n acc =
  Py.decimal_aux fuel (n / 10) (String (Py.digit (n mod 10)) acc).
Proof.
  intros H. cbn [Py.decimal_aux]. apply Z.ltb_ge in H. now rewrite H.
Qed.

(** Bounds on quotients by a constant. *)
Ltac div_bounds := Z.to_euclidean_division_equations; lia.

Lemma decimal_four_digits (y : Z) :
  (1000 <= y <= 9999)%Z ->
  Py.decimal y =
  String (Py.digit (y / 1000))
    (String (Py.digit (y / 100 mod 10))
       (String (Py.digit (y / 10 mod 10)) (String (Py.digit (y mod 10)) ""))).
Proof.
  intros H. unfold Py.decimal.
  replace (S (Z.to_nat y)) with (S (S (S (S (Z.to_nat y - 3))))) by lia.
  assert (H2 : (y / 10 / 10 = y / 100)%Z) by (rewrite Z.div_div by lia; reflexivity).
  assert (H3 : (y / 10 / 10 / 10 = y / 1000)%Z) by (rewrite !Z.div_div by lia; reflexivity).
  rewrite decimal_aux_more by lia.
  rewrite decimal_aux_more by div_bounds.
  rewrite decimal_aux_more by (rewrite H2; div_bounds).
  rewrite decimal_aux_last by (rewrite H3; div_bounds).
  rewrite H3, H2. rewrite (Z.mod_small (y / 1000) 10) by div_bounds.
  reflexivity.
Qed.

Lemma zfill_two_digits (n : Z) :
  (0 <= n < 100)%Z ->
  Py.zfill 2 n = String (Py.digit (n / 10)) (String (Py.digit (n mod 10)) "").
Proof.
  intros H. unfold Py.zfill, Py.decimal.
  destruct (Z_lt_ge_dec n 10) as [Hs|Hb].
  - rewrite decimal_aux_last by exact Hs.
    rewrite (Z.div_small n 10) by lia. reflexivity.
  - replace (S (Z.to_nat n)) with (S (S (Z.to_nat n - 1))) by lia.
    rewrite decimal_aux_more by lia.
    rewrite decimal_aux_last by div_bounds.
    rewrite (Z.mod_small (n / 10) 10) by div_bounds. reflexivity.
Qed.

Lemma mod_10_digit (n : Z) : is_digit (Py.digit (n mod 10)) = true.
Proof. apply is_digit_digit. apply Z.mod_pos_bound. lia. Qed.

(** [strftime('%Y-%m-%d %H:%M')] of a clock reading has the shape. *)
Lemma strftime_shape (tm : Py.struct_time) :
  clock_reading tm -> has_shape YYYY_MM_DD_HH_MM (Py.strftime_Ymd_HM tm) = true.
Proof.
  intros (Hy & Hmo & Hd & Hh & Hmi). unfold Py.strftime_Ymd_HM.
  rewrite decimal_four_digits by exact Hy.
  rewrite !zfill_two_digits by lia.
  cbn [String.append has_shape YYYY_MM_DD_HH_MM].
  rewrite !mod_10_digit.
  rewrite !is_digit_digit by div_bounds.
  reflexivity.
Qed.

(** C6. For a builder that passes validation, [send_email] with the flag
    set leaves the subject equal to the old subject, a space and the current
    local time in the shape YYYY-MM-DD HH:MM; the change stays on the builder,
    so a second send appends a second timestamp to the first; with the flag
    cleared the subject is what it was. *)
Theorem send_email_subject_timestamp (env env' : Env) (w : world) :
  valid (self w) ->
  clock_reading (localtime env) ->
  clock_reading (localtime env') ->
  let stamp := Py.strftime_Ymd_HM (localtime env) in
  let stamp' := Py.strftime_Ymd_HM (localtime env') in
  let w1 := snd (send_email env true w) in
  subject (self w1) = subject (self w) +s+ " " +s+ stamp
  /\ has_shape YYYY_MM_DD_HH_MM stamp = true
  /\ subject (self (snd (send_email env' true w1))) =
       (subject (self w) +s+ " " +s+ stamp) +s+ " " +s+ stamp'
  /\ has_shape YYYY_MM_DD_HH_MM stamp' = true
  /\ subject (self (snd (send_email env false w))) = subject (self w).
Proof.
  intros Hv Hc Hc'. cbv zeta.
  assert (H1 : self (snd (send_email env true w)) = rendered env true (self w))
    by (apply send_email_pass_self; exact Hv).
  assert (Hv1 : valid (self (snd (send_email env true w))))
    by (rewrite H1; apply rendered_valid; exact Hv).
  repeat split.
  - rewrite H1. apply rendered_subject.
  - apply strftime_shape; exact Hc.
  - rewrite send_email_pass_self by exact Hv1.
    rewrite rendered_subject, H1, rendered_subject. reflexivity.
  - apply strftime_shape; exact Hc'.
  - rewrite send_email_pass_self by exact Hv. apply rendered_subject.
Qed.

Lemma send_email_subject_timestamp_witness :
  let w := run [(example_env, Add_to_line_address "a@x"); (example_env, Set_subject "Report")]
               (fresh []) in
  let w1 := snd (send_email example_env true w) in
  subject (self w1) = "Report 2024-03-05 09:07"
  /\ subject (self (snd (send_email later_env true w1))) =
       "Report 2024-03-05 09:07 2024-12-31 23:59"
  /\ subject (self (snd (send_email example_env false w))) = "Report".
Proof.
  pose (w := run [(example_env, Add_to_line_address "a@x"); (example_env, Set_subject "Report")]
                 (fresh [])).
  assert (Hv : valid (self w)) by (repeat split; discriminate).
  assert (Hc : clock_reading (localtime example_env)) by (unfold clock_reading; simpl; lia).
  assert (Hc' : clock_reading (localtime later_env)) by (unfold clock_reading; simpl; lia).
  destruct (send_email_subject_timestamp example_env later_env w Hv Hc Hc')
    as (H1 & _ & H2 & _ & H3).
  exact (conj H1 (conj H2 H3)).
Defined.

(** ** Scripts and the recipients list *)

Lemma send_email_self_cases env enable w :
  self (snd (send_email env enable w)) = self w \/
  self (snd (send_email env enable w)) = rendered env enable (self w).
Proof.
  rewrite send_email_eq.
  destruct (Py.list_is_empty _); [left; reflexivity|].
  destruct (Py.str_is_empty _); [left; reflexivity|].
  destruct (Py.str_is_empty _); [left; reflexivity|].
  right. now rewrite deliver_self.
Qed.

Lemma attach_file_eq env p w :
  attach_file env p w =
  match read_bytes env p with
  | Some data =>
      (inr tt,
       {| self := set__smtp_message
                    (Mime.attach (file_part (Py.basename p) data) (_smtp_message (self w)))
                    (self w);
          outbox := outbox w |})
  | None => (inl (OSError p), w)
  end.
Proof. unfold attach_file, bind, open_rb. destruct (read_bytes env p); reflexivity. Qed.

(** [add_html_text] touches the stylesheet and the HTML fragments only. *)
Lemma add_html_text_kept x style s :
  sendFrom (add_html_text x style s) = sendFrom s /\
  subject (add_html_text x style s) = subject s /\
  smtp_server (add_html_text x style s) = smtp_server s /\
  _to_addresses (add_html_text x style s) = _to_addresses s /\
  _cc_addresses (add_html_text x style s) = _cc_addresses s /\
  _bcc_addresses (add_html_text x style s) = _bcc_addresses s /\
  _recipients (add_html_text x style s) = _recipients s /\
  _smtp_message (add_html_text x style s) = _smtp_message s /\
  _text_parts (add_html_text x style s) = _text_parts s.
Proof.
  unfold add_html_text. destruct (Py.str_is_empty (_html_header s)), style;
    repeat split; reflexivity.
Qed.

Lemma perform_recipients env c w :
  _recipients (self (snd (perform env c w))) = _recipients (self w) ++ contributed c.
Proof.
  destruct c; cbn [perform contributed]; rewrite ?app_nil_r; try reflexivity.
  - cbn [mutate snd self]. apply add_html_text_kept.
  - rewrite attach_file_eq. destruct (read_bytes env file_path); reflexivity.
  - destruct (send_email_self_cases env enable_subj_timestamp w) as [-> | ->];
      [reflexivity | apply rendered_kept].
Qed.

Lemma run_recipients script w :
  _recipients (self (run script w)) =
  _recipients (self w) ++ flat_map (fun ec => contributed (snd ec)) script.
Proof.
  revert w. induction script as [|[env c] rest IH]; intros w; cbn [run flat_map snd].
  - now rewrite app_nil_r.
  - rewrite IH, perform_recipients. cbn [snd]. now rewrite app_assoc.
Qed.

(** C3. Each add call appends the comma-split tokens of its argument to
    its own list, each bulk assignment replaces its own list by the new one,
    and over any script of calls (these six interleaved in any way, and any
    other call besides) the recipients list is what it was followed by the
    tokens and lists the calls contributed, in call order, nothing dropped and
    nothing removed; on a builder constructed without arguments it is exactly
    that concatenation. *)
Theorem recipients_accumulate :
  (forall a s, _to_addresses (add_to_line_address a s) = _to_addresses s ++ Py.split Py.comma a)
  /\ (forall a s, _cc_addresses (add_cc_line_address a s) = _cc_addresses s ++ Py.split Py.comma a)
  /\ (forall a s,
        _bcc_addresses (add_bcc_line_address a s) = _bcc_addresses s ++ Py.split Py.comma a)
  /\ (forall l s, _to_addresses (to_addresses_setter l s) = l)
  /\ (forall l s, _cc_addresses (cc_addresses_setter l s) = l)
  /\ (forall l s, _bcc_addresses (bcc_addresses_setter l s) = l)
  /\ (forall script w,
        _recipients (self (run script w)) =
        _recipients (self w) ++ flat_map (fun ec => contributed (snd ec)) script)
  /\ (forall script,
        _recipients (self (run script (fresh []))) =
        flat_map (fun ec => contributed (snd ec)) script).
Proof.
  repeat (split; [reflexivity|]).
  split; [exact run_recipients|].
  intros script. now rewrite run_recipients.
Qed.

(** Two bulk assignments of the To list: the list is replaced, the
    recipients keep the first assignment's addresses. *)
Example recipients_after_two_assignments :
  let w := run [(example_env, Set_to_addresses ["a@x"; "b@y"]);
                (example_env, Add_bcc_line_address "c@z,a@x");
                (example_env, Set_to_addresses ["d@w"])] (fresh []) in
  _to_addresses (self w) = ["d@w"] /\
  _recipients (self w) = ["a@x"; "b@y"; "c@z"; "a@x"; "d@w"].
Proof. split; reflexivity. Qed.

(** ** What the constructor establishes *)

Lemma init_arg_inv i arg st : init_inv st -> init_inv (init_arg i arg st).
Proof.
  destruct st as [[s tl] bl]. unfold init_inv. intros H.
  destruct i as [|[|[|[|[|[|[|i]]]]]]]; cbn [init_arg]; try exact H.
  destruct (add_html_text_kept arg None s) as (_ & _ & _ & -> & -> & -> & -> & -> & _).
  exact H.
Qed.

Lemma init_loop_inv args : forall i st, init_inv st -> init_inv (init_loop i args st).
Proof.
  induction args as [|arg rest IH]; intros i st H; cbn [init_loop]; [exact H|].
  apply IH, init_arg_inv, H.
Qed.

Lemma init_message args : _smtp_message (__init__ args) = Mime.MIMEMultipart "alternative".
Proof.
  unfold __init__.
  pose proof (init_loop_inv args 0 (init_properties, None, None)) as H.
  destruct (init_loop 0 args (init_properties, None, None)) as [[s tl] bl].
  destruct H as (Hm & _); [cbn; repeat split|].
  destruct tl as [[|a tl]|], bl as [[|b bl]|]; exact Hm.
Qed.

Lemma init_bcc_in_recipients args :
  incl (_bcc_addresses (__init__ args)) (_recipients (__init__ args)).
Proof.
  unfold __init__.
  pose proof (init_loop_inv args 0 (init_properties, None, None)) as H.
  destruct (init_loop 0 args (init_properties, None, None)) as [[s tl] bl].
  destruct H as (_ & _ & _ & Hb & Hr); [cbn; repeat split|].
  destruct tl as [[|a tl]|], bl as [[|b bl]|]; cbn;
    rewrite ?Hb, ?Hr; auto using incl_nil_l, incl_refl, incl_appr.
  apply (incl_appr (a :: tl)), incl_refl.
Qed.

(** ** Bcc: absent from the header fields, present in the envelope *)

Lemma named_app name h1 h2 :
  Mime.named name (h1 ++ h2) = Mime.named name h1 ++ Mime.named name h2.
Proof. unfold Mime.named. now rewrite filter_app, map_app. Qed.

Lemma fields_set_no_bcc subj s : Mime.named "Bcc" (fields_set subj s) = [].
Proof. unfold fields_set. destruct (Py.list_is_empty _); reflexivity. Qed.

Lemma init_bcc_hidden args : bcc_hidden (__init__ args).
Proof.
  split; [|apply init_bcc_in_recipients].
  unfold Mime.get_all. now rewrite init_message.
Qed.

Lemma rendered_bcc_hidden env enable s : bcc_hidden s -> bcc_hidden (rendered env enable s).
Proof.
  intros [Hh Hi]. split.
  - unfold Mime.get_all in *.
    now rewrite rendered_headers, named_app, fields_set_no_bcc, app_nil_r.
  - destruct (rendered_kept env enable s) as (_ & _ & _ & _ & -> & -> & _). exact Hi.
Qed.

Lemma perform_bcc_hidden env c w :
  bcc_hidden (self w) -> bcc_hidden (self (snd (perform env c w))).
Proof.
  intros [Hh Hi].
  destruct c; cbn [perform mutate snd self];
    try (split; [exact Hh | cbn; auto using incl_appl, incl_appr, incl_refl, incl_app]; fail).
  - unfold bcc_hidden, Mime.get_all.
    destruct (add_html_text_kept html_text style_text (self w))
      as (_ & _ & _ & _ & _ & -> & -> & -> & _).
    split; assumption.
  - rewrite attach_file_eq. destruct (read_bytes env file_path); split; assumption.
  - destruct (send_email_self_cases env enable_subj_timestamp w) as [-> | ->].
    + split; assumption.
    + apply rendered_bcc_hidden. split; assumption.
Qed.

Lemma run_bcc_hidden script : forall w, bcc_hidden (self w) -> bcc_hidden (self (run script w)).
Proof.
  induction script as [|[env c] rest IH]; intros w H; cbn [run]; [exact H|].
  apply IH, perform_bcc_hidden, H.
Qed.

(** ** Before the first send *)

Lemma perform_unsent env c w :
  is_send c = false ->
  Mime.headers (_smtp_message (self (snd (perform env c w)))) =
    Mime.headers (_smtp_message (self w)) /\
  Mime.parts (_smtp_message (self (snd (perform env c w)))) =
    Mime.parts (_smtp_message (self w)) ++ attached (env, c).
Proof.
  intros Hc. destruct c; try discriminate Hc;
    cbn [perform mutate snd self attached fst];
    try (split; [reflexivity | now rewrite app_nil_r]).
  - destruct (add_html_text_kept html_text style_text (self w))
      as (_ & _ & _ & _ & _ & _ & _ & -> & _).
    split; [reflexivity | now rewrite app_nil_r].
  - rewrite attach_file_eq. destruct (read_bytes env file_path);
      split; try reflexivity. now rewrite app_nil_r.
Qed.

Lemma run_unsent script : forall w,
  never_sent script = true ->
  Mime.headers (_smtp_message (self (run script w))) = Mime.headers (_smtp_message (self w)) /\
  Mime.parts (_smtp_message (self (run script w))) =
    Mime.parts (_smtp_message (self w)) ++ flat_map attached script /\
  outbox (run script w) = outbox w.
Proof.
  induction script as [|[env c] rest IH]; intros w H; cbn [run flat_map].
  - now rewrite app_nil_r.
  - cbn [never_sent forallb snd] in H. apply andb_prop in H. destruct H as [Hc Hrest].
    apply negb_true_iff in Hc.
    destruct (IH (snd (perform env c w)) Hrest) as (-> & -> & ->).
    destruct (perform_unsent env c w Hc) as (-> & ->).
    repeat split; [now rewrite app_assoc|].
    destruct c; try discriminate Hc; cbn [perform mutate snd outbox]; try reflexivity.
    rewrite attach_file_eq. destruct (read_bytes env file_path); reflexivity.
Qed.

Lemma fields_set_to subj s :
  Mime.named "To" (fields_set subj s) = [Py.join "," (_to_addresses s)].
Proof. unfold fields_set. destruct (Py.list_is_empty _); reflexivity. Qed.

Lemma fields_set_cc subj s :
  Mime.named "Cc" (fields_set subj s) =
  if Py.list_is_empty (_cc_addresses s) then [] else [Py.join "," (_cc_addresses s)].
Proof. unfold fields_set. destruct (Py.list_is_empty _); reflexivity. Qed.

Lemma bcc_supplied_contributed c : incl (bcc_supplied c) (contributed c).
Proof. destruct c; cbn; auto using incl_refl, incl_nil_l. Qed.

Lemma send_email_log_cases env enable w :
  outbox (snd (send_email env enable w)) = outbox w
  \/ outbox (snd (send_email env enable w)) =
       outbox w ++ [envelope (rendered env enable (self w))].
Proof.
  rewrite send_email_eq.
  destruct (Py.list_is_empty _); [left; reflexivity|].
  destruct (Py.str_is_empty _); [left; reflexivity|].
  destruct (Py.str_is_empty _); [left; reflexivity|].
  rewrite deliver_outbox. cbn [outbox].
  destruct (handed_over _ _); [right | left]; reflexivity.
Qed.

Lemma perform_bcc_free_log env c w :
  bcc_hidden (self w) -> bcc_free_log w -> bcc_free_log (snd (perform env c w)).
Proof.
  intros Hs Hlog. unfold bcc_free_log in *.
  destruct c; cbn [perform mutate snd outbox]; try exact Hlog.
  - rewrite attach_file_eq. destruct (read_bytes env file_path); exact Hlog.
  - destruct (send_email_log_cases env enable_subj_timestamp w) as [-> | ->];
      [exact Hlog|].
    apply Forall_app. split; [exact Hlog|].
    constructor; [|constructor]. cbn [envelope document].
    apply (rendered_bcc_hidden env enable_subj_timestamp (self w) Hs).
Qed.

Lemma run_bcc_free_log script : forall w,
  bcc_hidden (self w) -> bcc_free_log w -> bcc_free_log (run script w).
Proof.
  induction script as [|[env c] rest IH]; intros w Hs Hlog; cbn [run]; [exact Hlog|].
  apply IH; [apply perform_bcc_hidden, Hs | apply perform_bcc_free_log; assumption].
Qed.

(** C4, as stated, fails on a builder that was sent before: with a Cc
    address the first send sets a Cc field; the Cc list is then assigned the
    empty list and the builder sent again.  The second document still has the
    Cc field, with an empty Cc list, and has the To field twice. *)
Lemma stale_cc_on_second_send :
  let w := run [(example_env, Add_to_line_address "a@x");
                (example_env, Add_cc_line_address "c@w");
                (example_env, Send_email false);
                (example_env, Set_cc_addresses [])] (fresh []) in
  _cc_addresses (self w) = []
  /\ map (fun d => (Mime.get_all "To" (document d), Mime.get_all "Cc" (document d)))
         (outbox (snd (send_email example_env false w)))
     = [(["a@x"], ["c@w"]); (["a@x"; "a@x"], ["c@w"])].
Proof. split; vm_compute; reflexivity. Qed.

(** C4, amended. Take any builder: any constructor arguments, then any
    script of calls (with as many Bcc additions as one likes, earlier sends
    included).  No document handed to the transport so far has a Bcc field.
    If the builder passes validation, [send_email] prepares one call and hands
    it to the transport exactly when the session opens and the document
    serialises; the document has no Bcc field; the envelope recipients are
    the recipients list and contain every address of the Bcc list and every
    Bcc address any call of the script supplied; the send appends To, the
    comma-join of the To list, and Cc, the comma-join of the Cc list, only
    when that list is not empty, to the fields already on the message; on a
    builder not sent before these are the only To and Cc fields. *)
Theorem bcc_only_in_envelope
  (args : list string) (script : list (Env * call)) (env : Env) (enable : bool) :
  let w := run script (fresh args) in
  (forall d, In d (outbox w) -> Mime.has_header "Bcc" (document d) = false)
  /\ (valid (self w) ->
      exists d,
        outbox (snd (send_email env enable w)) =
          (if handed_over env d then outbox w ++ [d] else outbox w)
        /\ Mime.has_header "Bcc" (document d) = false
        /\ envelope_to d = _recipients (self w)
        /\ (forall b, In b (_bcc_addresses (self w)) -> In b (envelope_to d))
        /\ (forall ec b, In ec script -> In b (bcc_supplied (snd ec)) -> In b (envelope_to d))
        /\ Mime.headers (document d) =
             Mime.headers (_smtp_message (self w))
             ++ [("Subject", subject (self (snd (send_email env enable w))));
                 ("From", sendFrom (self w));
                 ("To", Py.join "," (_to_addresses (self w)))]
             ++ (if Py.list_is_empty (_cc_addresses (self w)) then []
                 else [("Cc", Py.join "," (_cc_addresses (self w)))])
        /\ (never_sent script = true ->
            Mime.get_all "To" (document d) = [Py.join "," (_to_addresses (self w))] /\
            Mime.get_all "Cc" (document d) =
              if Py.list_is_empty (_cc_addresses (self w)) then []
              else [Py.join "," (_cc_addresses (self w))])).
Proof.
  intros w. split.
  { assert (Hlog : bcc_free_log w).
    { apply run_bcc_free_log; [apply init_bcc_hidden | constructor]. }
    intros d Hd. unfold bcc_free_log in Hlog. rewrite Forall_forall in Hlog.
    unfold Mime.has_header. now rewrite (Hlog d Hd). }
  intros Hv.
  assert (Hinv : bcc_hidden (rendered env enable (self w))).
  { apply rendered_bcc_hidden, run_bcc_hidden, init_bcc_hidden. }
  destruct (rendered_kept env enable (self w)) as (_ & _ & _ & _ & Hb & Hr & _).
  exists (envelope (rendered env enable (self w))).
  split; [apply send_email_pass_outbox; exact Hv|].
  cbn [envelope envelope_to document].
  split; [unfold Mime.has_header; destruct Hinv as [-> _]; reflexivity|].
  split; [exact Hr|].
  split; [intros b Hin; apply Hinv; rewrite Hb; exact Hin|].
  split.
  { intros ec b Hec Hin. rewrite Hr. unfold w. rewrite run_recipients.
    apply in_or_app. right. apply in_flat_map. exists ec.
    split; [exact Hec | apply bcc_supplied_contributed, Hin]. }
  split.
  { rewrite send_email_pass_self by exact Hv. apply rendered_headers. }
  intros Hns. unfold Mime.get_all.
  rewrite rendered_headers, !named_app, fields_set_to, fields_set_cc.
  destruct (run_unsent script (fresh args) Hns) as (Hh & _).
  fold w in Hh. rewrite Hh. cbn [fresh self]. rewrite init_message.
  split; reflexivity.
Qed.

Lemma bcc_only_in_envelope_witness :
  let w := run [(example_env, Add_to_line_address "a@x,b@y");
                (example_env, Add_bcc_line_address "audit@z,legal@z");
                (example_env, Set_bcc_addresses ["boss@z"])] (fresh []) in
  exists d,
    outbox (snd (send_email example_env true w)) = [d]
    /\ Mime.has_header "Bcc" (document d) = false
    /\ envelope_to d = ["a@x"; "b@y"; "audit@z"; "legal@z"; "boss@z"]
    /\ Mime.get_all "To" (document d) = ["a@x,b@y"]
    /\ Mime.get_all "Cc" (document d) = [].
Proof.
  pose (script := [(example_env, Add_to_line_address "a@x,b@y");
                   (example_env, Add_bcc_line_address "audit@z,legal@z");
                   (example_env, Set_bcc_addresses ["boss@z"])]).
  assert (Hv : valid (self (run script (fresh [])))) by (repeat split; discriminate).
  destruct (bcc_only_in_envelope [] script example_env true) as (_ & Hsend).
  destruct (Hsend Hv) as (d & Hout & Hno & Hto & _ & _ & _ & Hfirst).
  destruct (Hfirst eq_refl) as (HTo & HCc).
  destruct (logged_call _ _ _ _ Hout eq_refl) as (_ & Hlog).
  exists d. exact (conj Hlog (conj Hno (conj Hto (conj HTo HCc)))).
Defined.

(** ** The order of the parts *)

Lemma send_parts args script env enable :
  let w := run script (fresh args) in
  valid (self w) ->
  outbox (snd (send_email env enable w)) =
    (if handed_over env (envelope (rendered env enable (self w)))
     then outbox w ++ [envelope (rendered env enable (self w))]
     else outbox w)
  /\ Mime.parts (document (envelope (rendered env enable (self w)))) =
       Mime.parts (_smtp_message (self w)) ++ body_parts (self w)
  /\ (never_sent script = true ->
      outbox w = [] /\ Mime.parts (_smtp_message (self w)) = flat_map attached script).
Proof.
  intros w Hv. split; [apply send_email_pass_outbox; exact Hv|].
  split; [apply rendered_parts|].
  intros Hns. destruct (run_unsent script (fresh args) Hns) as (_ & Hp & Ho).
  fold w in Hp, Ho. rewrite Hp, Ho. cbn [fresh self outbox]. now rewrite init_message.
Qed.

(** C1, as stated, fails: a plain fragment, an HTML fragment, then one
    attached file, then a send.  The one document sent has the attachment
    first and the two body parts after it. *)
Lemma attachment_precedes_body :
  let w := run [(example_env, Add_to_line_address "a@x");
                (example_env, Add_plain_text "hello");
                (example_env, Add_html_text "<p>hello</p>" (Some "<style></style>"));
                (example_env, Attach_file "reports/test_attachment.jpg")] (fresh []) in
  map (fun d => map part_type (Mime.parts (document d)))
      (outbox (snd (send_email example_env false w)))
    = [["application/octet-stream"; "text/plain"; "text/html"]]
  /\ map (fun d => text_html_then_files (Mime.parts (document d)))
         (outbox (snd (send_email example_env false w)))
    = [false].
Proof. split; vm_compute; reflexivity. Qed.

(** C1, amended. When a builder passes validation, [send_email] prepares
    one call and hands it to the transport exactly when the session opens and
    the document serialises.  On a builder not sent before, the parts of that
    document are, in this order: one attachment for every [attach_file] call
    whose file could be read, in call order; then the plain-text part if
    there are plain fragments; then the HTML part if there are HTML
    fragments.  (On any builder, sent before or not, the send appends the
    plain-text part and then the HTML part to the parts already attached.) *)
Theorem attachments_then_text_then_html
  (args : list string) (script : list (Env * call)) (env : Env) (enable : bool) :
  let w := run script (fresh args) in
  valid (self w) ->
  exists d,
    outbox (snd (send_email env enable w)) =
      (if handed_over env d then outbox w ++ [d] else outbox w)
    /\ Mime.parts (document d) =
         Mime.parts (_smtp_message (self w))
         ++ (if Py.list_is_empty (_text_parts (self w)) then []
             else [Mime.MIMEText (Py.join nl (_text_parts (self w))) "plain"])
         ++ (if Py.list_is_empty (_html_parts (self w)) then []
             else [Mime.MIMEText
                     (_html_header (self w) +s+ "<BR>" +s+ Py.join "" (_html_parts (self w)))
                     "html"])
    /\ (never_sent script = true ->
        outbox w = []
        /\ Mime.parts (document d) =
             flat_map attached script
             ++ (if Py.list_is_empty (_text_parts (self w)) then []
                 else [Mime.MIMEText (Py.join nl (_text_parts (self w))) "plain"])
             ++ (if Py.list_is_empty (_html_parts (self w)) then []
                 else [Mime.MIMEText
                         (_html_header (self w) +s+ "<BR>" +s+ Py.join "" (_html_parts (self w)))
                         "html"])).
Proof.
  intros w Hv. destruct (send_parts args script env enable Hv) as (Ho & Hp & Hns).
  fold w in Ho, Hp, Hns.
  exists (envelope (rendered env enable (self w))).
  split; [exact Ho|]. split; [exact Hp|].
  intros H. destruct (Hns H) as (Hob & Hparts).
  split; [exact Hob|].
  rewrite Hp, Hparts. reflexivity.
Qed.

Lemma attachments_then_text_then_html_witness :
  let w := run [(example_env, Add_to_line_address "a@x");
                (example_env, Add_plain_text "hello");
                (example_env, Attach_file "reports/test_attachment.jpg");
                (example_env, Attach_file "reports/missing.jpg");
                (example_env, Add_html_text "<p>hello</p>" (Some "<style></style>"))]
               (fresh []) in
  exists d,
    outbox (snd (send_email example_env false w)) = [d]
    /\ Mime.parts (document d) =
         [file_part "test_attachment.jpg" "JFIF";
          Mime.MIMEText "hello" "plain";
          Mime.MIMEText "<style></style><BR><p>hello</p>" "html"].
Proof.
  pose (script := [(example_env, Add_to_line_address "a@x");
                   (example_env, Add_plain_text "hello");
                   (example_env, Attach_file "reports/test_attachment.jpg");
                   (example_env, Attach_file "reports/missing.jpg");
                   (example_env, Add_html_text "<p>hello</p>" (Some "<style></style>"))]).
  assert (Hv : valid (self (run script (fresh [])))) by (repeat split; discriminate).
  destruct (attachments_then_text_then_html [] script example_env false Hv)
    as (d & Hout & _ & Hfirst).
  destruct (Hfirst eq_refl) as (_ & Hparts).
  destruct (logged_call _ _ _ _ Hout eq_refl) as (_ & Hlog).
  exists d. exact (conj Hlog Hparts).
Defined.

(** ** The plain-text part *)

Lemma perform_text_parts env c w :
  _text_parts (self (snd (perform env c w))) = _text_parts (self w) ++ plain_fragment c.
Proof.
  destruct c; cbn [perform plain_fragment mutate snd self];
    rewrite ?app_nil_r; try reflexivity.
  - apply add_html_text_kept.
  - rewrite attach_file_eq. destruct (read_bytes env file_path); reflexivity.
  - destruct (send_email_self_cases env enable_subj_timestamp w) as [-> | ->];
      [reflexivity | apply rendered_kept].
Qed.

Lemma run_text_parts script : forall w,
  _text_parts (self (run script w)) =
  _text_parts (self w) ++ flat_map (fun ec => plain_fragment (snd ec)) script.
Proof.
  induction script as [|[env c] rest IH]; intros w; cbn [run flat_map snd].
  - now rewrite app_nil_r.
  - rewrite IH, perform_text_parts. now rewrite app_assoc.
Qed.

Lemma attached_not_text sub script :
  filter (Mime.is_text sub) (flat_map attached script) = [].
Proof.
  induction script as [|[env c] rest IH]; [reflexivity|].
  cbn [flat_map]. rewrite filter_app, IH, app_nil_r.
  unfold attached. cbn [snd fst].
  destruct c; try reflexivity.
  destruct (read_bytes env file_path); reflexivity.
Qed.

Lemma body_parts_plain s :
  filter (Mime.is_text "plain") (body_parts s) =
  if Py.list_is_empty (_text_parts s) then []
  else [Mime.MIMEText (Py.join nl (_text_parts s)) "plain"].
Proof.
  unfold body_parts.
  destruct (Py.list_is_empty (_text_parts s)), (Py.list_is_empty (_html_parts s)); reflexivity.
Qed.

(** C7. The plain fragments of a builder are those of its construction
    followed by the arguments of the [add_plain_text] calls, in call order
    (none from construction when it had no arguments).  When the builder
    passes validation, [send_email] prepares one call, handed to the transport
    exactly when the session opens and the document serialises; to the
    document it attaches, if the fragments are not empty, one plain-text part
    whose text is the fragments joined by a newline, and none if they are
    empty; on a builder not sent before, that part is the only plain-text
    part of the document, and with no fragments the document has no
    plain-text part. *)
Theorem plain_text_part
  (args : list string) (script : list (Env * call)) (env : Env) (enable : bool) :
  let w := run script (fresh args) in
  valid (self w) ->
  _text_parts (__init__ []) = []
  /\ _text_parts (self w) =
       _text_parts (__init__ args) ++ flat_map (fun ec => plain_fragment (snd ec)) script
  /\ exists d,
       outbox (snd (send_email env enable w)) =
         (if handed_over env d then outbox w ++ [d] else outbox w)
       /\ filter (Mime.is_text "plain") (Mime.parts (document d)) =
            filter (Mime.is_text "plain") (Mime.parts (_smtp_message (self w)))
            ++ (if Py.list_is_empty (_text_parts (self w)) then []
                else [Mime.MIMEText (Py.join nl (_text_parts (self w))) "plain"])
       /\ (never_sent script = true ->
           filter (Mime.is_text "plain") (Mime.parts (document d)) =
             if Py.list_is_empty (_text_parts (self w)) then []
             else [Mime.MIMEText (Py.join nl (_text_parts (self w))) "plain"]).
Proof.
  intros w Hv. split; [reflexivity|].
  split; [unfold w; rewrite run_text_parts; reflexivity|].
  destruct (send_parts args script env enable Hv) as (Ho & Hp & Hns).
  fold w in Ho, Hp, Hns.
  exists (envelope (rendered env enable (self w))).
  split; [exact Ho|].
  rewrite Hp, filter_app, body_parts_plain.
  split; [reflexivity|].
  intros H. destruct (Hns H) as (_ & ->). now rewrite attached_not_text.
Qed.

Lemma plain_text_part_witness :
  let w := run [(example_env, Add_to_line_address "a@x");
                (example_env, Add_plain_text "A");
                (example_env, Attach_file "reports/test_attachment.jpg");
                (example_env, Add_plain_text "B")] (fresh []) in
  _text_parts (self w) = ["A"; "B"]
  /\ exists d,
       outbox (snd (send_email example_env true w)) = [d]
       /\ filter (Mime.is_text "plain") (Mime.parts (document d)) =
            [Mime.MIMEText ("A" +s+ nl +s+ "B") "plain"].
Proof.
  pose (script := [(example_env, Add_to_line_address "a@x");
                   (example_env, Add_plain_text "A");
                   (example_env, Attach_file "reports/test_attachment.jpg");
                   (example_env, Add_plain_text "B")]).
  assert (Hv : valid (self (run script (fresh [])))) by (repeat split; discriminate).
  destruct (plain_text_part [] script example_env true Hv)
    as (_ & Hfrags & d & Hout & _ & Hfirst).
  split; [exact Hfrags|].
  destruct (logged_call _ _ _ _ Hout eq_refl) as (_ & Hlog).
  exists d. exact (conj Hlog (Hfirst eq_refl)).
Defined.

(** No fragments, no plain-text part. *)
Example no_plain_text_part :
  let w := run [(example_env, Add_to_line_address "a@x");
                (example_env, Add_html_text "<p>only html</p>" (Some "<style></style>"))]
               (fresh []) in
  map (fun d => map part_type (Mime.parts (document d)))
      (outbox (snd (send_email example_env true w))) = [["text/html"]].
Proof. vm_compute. reflexivity. Qed.

(** ** The HTML part and its stylesheet *)

Lemma template_nonempty : _template_html_header <> "".
Proof. vm_compute. discriminate. Qed.

Lemma add_html_text_header x style s :
  _html_header (add_html_text x style s) =
  if Py.str_is_empty (_html_header s) then style_offered style else _html_header s.
Proof.
  unfold add_html_text. destruct (Py.str_is_empty (_html_header s)), style; reflexivity.
Qed.

Lemma add_html_text_parts x style s :
  _html_parts (add_html_text x style s) = _html_parts s ++ [x].
Proof.
  unfold add_html_text. destruct (Py.str_is_empty (_html_header s)), style; reflexivity.
Qed.

Lemma add_html_calls_header calls : forall s,
  _html_header (add_html_calls calls s) =
  if Py.str_is_empty (_html_header s)
  then first_nonempty (map (fun c => style_offered (snd c)) calls)
  else _html_header s.
Proof.
  induction calls as [|[x style] rest IH]; intros s; cbn [add_html_calls fold_left map fst snd].
  - cbn [first_nonempty]. destruct (_html_header s); reflexivity.
  - fold (add_html_calls rest (add_html_text x style s)).
    rewrite IH, add_html_text_header. cbn [first_nonempty].
    destruct (Py.str_is_empty (_html_header s)) eqn:E.
    + destruct (Py.str_is_empty (style_offered style)); reflexivity.
    + now rewrite E.
Qed.

Lemma add_html_calls_parts calls : forall s,
  _html_parts (add_html_calls calls s) = _html_parts s ++ map fst calls.
Proof.
  induction calls as [|[x style] rest IH]; intros s; cbn [add_html_calls fold_left map fst snd].
  - now rewrite app_nil_r.
  - fold (add_html_calls rest (add_html_text x style s)).
    rewrite IH, add_html_text_parts, <- app_assoc. reflexivity.
Qed.

(** C2, as stated, fails: the first call passes the empty string as its
    style, the second passes ["custom"].  The header after the first call is
    that empty style, and the second call changes it; the HTML part sent
    starts with ["custom"]. *)
Lemma empty_style_is_not_kept :
  let s1 := add_html_text "<p>1</p>" (Some "") (__init__ []) in
  let s2 := add_html_text "<p>2</p>" (Some "custom") s1 in
  let w := {| self := add_to_line_address "a@x" s2; outbox := [] |} in
  _html_header s1 = ""
  /\ _html_header s2 = "custom"
  /\ _html_header s2 <> _html_header s1
  /\ map (fun d => map Mime.body (Mime.parts (document d)))
         (outbox (snd (send_email example_env false w)))
     = [[Mime.Text "custom<BR><p>1</p><p>2</p>"]].
Proof. repeat split; try discriminate; vm_compute; reflexivity. Qed.

(** C2, amended. Over any run of [add_html_text] calls the stylesheet
    header, if still empty before the run, becomes the stylesheet of the first
    call that offers a non-empty one (its style, or the built-in stylesheet,
    which is not empty, when it gives none) and stays empty if no call does; a
    header that is not empty is changed by no later call; the fragments are
    appended in call order.  A send that passes validation with HTML fragments
    prepares a document whose last part is the one HTML part it attaches: the
    header, then [<BR>], then the fragments joined with nothing between them;
    the document is handed to the transport exactly when the session opens
    and it serialises. *)
Theorem html_header_first_nonempty (calls : list (string * option string)) (s : t) :
  let s' := add_html_calls calls s in
  _html_header s' =
    (if Py.str_is_empty (_html_header s)
     then first_nonempty (map (fun c => style_offered (snd c)) calls)
     else _html_header s)
  /\ _template_html_header <> ""
  /\ (forall x style, _html_header s' <> "" ->
        _html_header (add_html_text x style s') = _html_header s')
  /\ _html_parts s' = _html_parts s ++ map fst calls
  /\ (forall env enable sent,
        valid s' -> _html_parts s' <> [] ->
        exists d before,
          outbox (snd (send_email env enable {| self := s'; outbox := sent |})) =
            (if handed_over env d then sent ++ [d] else sent)
          /\ Mime.parts (document d) =
               before
               ++ [Mime.MIMEText (_html_header s' +s+ "<BR>" +s+ Py.join "" (_html_parts s'))
                     "html"]).
Proof.
  cbv zeta. split; [apply add_html_calls_header|].
  split; [exact template_nonempty|].
  split.
  { intros x style H. rewrite add_html_text_header.
    destruct (_html_header (add_html_calls calls s)); [congruence | reflexivity]. }
  split; [apply add_html_calls_parts|].
  intros env enable sent Hv Hne.
  exists (envelope (rendered env enable (add_html_calls calls s))).
  exists (Mime.parts (_smtp_message (add_html_calls calls s))
          ++ (if Py.list_is_empty (_text_parts (add_html_calls calls s)) then []
              else [Mime.MIMEText (Py.join nl (_text_parts (add_html_calls calls s))) "plain"])).
  split.
  - rewrite send_email_pass_outbox by exact Hv. reflexivity.
  - cbn [envelope document]. rewrite rendered_parts. unfold body_parts.
    destruct (_html_parts (add_html_calls calls s)) as [|h hs]; [congruence|].
    cbn [Py.list_is_empty]. now rewrite app_assoc.
Qed.

(** The default stylesheet is captured by a first call without a style and
    a later style is ignored. *)
Example default_header_kept :
  let s := add_html_calls [("<p>1</p>", None); ("<p>2</p>", Some "custom")] (__init__ []) in
  _html_header s = _template_html_header
  /\ body_parts s =
     [Mime.MIMEText (_template_html_header +s+ "<BR>" +s+ "<p>1</p><p>2</p>") "html"].
Proof. split; vm_compute; reflexivity. Qed.

Lemma html_header_first_nonempty_witness :
  let s' := add_html_calls [("<p>1</p>", None); ("<p>2</p>", Some "custom")]
              (add_to_line_address "a@x" (__init__ [])) in
  _html_header s' = _template_html_header
  /\ exists d before,
       outbox (snd (send_email example_env false {| self := s'; outbox := [] |})) = [d]
       /\ Mime.parts (document d) =
            before
            ++ [Mime.MIMEText (_template_html_header +s+ "<BR>" +s+ "<p>1</p><p>2</p>") "html"].
Proof.
  destruct (html_header_first_nonempty
              [("<p>1</p>", None); ("<p>2</p>", Some "custom")]
              (add_to_line_address "a@x" (__init__ [])))
    as (Hh & _ & _ & _ & Hsend).
  split; [exact Hh|].
  destruct (Hsend example_env false []) as (d & before & Hout & Hparts);
    [repeat split; discriminate | discriminate |].
  destruct (logged_call _ _ _ _ Hout eq_refl) as (_ & Hlog).
  exists d, before. exact (conj Hlog Hparts).
Defined.

(** ** [send_email_message] and the types of its address arguments *)

Lemma send_email_message_accepted env to subj html style from cc bcc sent :
  is_str_or_list to = true ->
  is_str_or_list_or_none cc = true ->
  is_str_or_list_or_none bcc = true ->
  send_email_message env to subj html style from cc bcc sent =
  send_email env true {| self := prepared to subj html style from cc bcc; outbox := sent |}.
Proof.
  intros Hto Hcc Hbcc.
  destruct to; try discriminate Hto; destruct cc; try discriminate Hcc;
    destruct bcc; try discriminate Hbcc; destruct from; reflexivity.
Qed.

Lemma prepared_addresses to subj html style from cc bcc :
  _to_addresses (prepared to subj html style from cc bcc) = address_list to
  /\ _cc_addresses (prepared to subj html style from cc bcc) = address_list cc
  /\ _bcc_addresses (prepared to subj html style from cc bcc) = address_list bcc
  /\ _recipients (prepared to subj html style from cc bcc) =
       address_list to ++ address_list cc ++ address_list bcc.
Proof.
  unfold prepared.
  match goal with
  | |- context [add_html_text ?x ?st ?s] =>
      destruct (add_html_text_kept x st s) as (_ & _ & _ & -> & -> & -> & -> & _)
  end.
  destruct cc, bcc, from; cbn; rewrite ?app_nil_r, <- ?app_assoc; repeat split; reflexivity.
Qed.

Lemma send_email_addresses env enable w :
  _to_addresses (self (snd (send_email env enable w))) = _to_addresses (self w)
  /\ _cc_addresses (self (snd (send_email env enable w))) = _cc_addresses (self w)
  /\ _bcc_addresses (self (snd (send_email env enable w))) = _bcc_addresses (self w)
  /\ _recipients (self (snd (send_email env enable w))) = _recipients (self w).
Proof.
  destruct (send_email_self_cases env enable w) as [-> | ->]; [repeat split; reflexivity|].
  destruct (rendered_kept env enable (self w)) as (_ & _ & -> & -> & -> & -> & _).
  repeat split; reflexivity.
Qed.

Lemma type_messages_distinct :
  to_not_recognized <> cc_not_recognized /\ to_not_recognized <> bcc_not_recognized
  /\ cc_not_recognized <> bcc_not_recognized.
Proof. repeat split; discriminate. Qed.

(** C8, as stated, fails: [None] is neither a str nor a list, and with
    [None] for the Cc argument (and for the Bcc argument) nothing is raised
    for it: the message is sent, to the To addresses. *)
Lemma none_for_cc_is_skipped :
  let r := send_email_message example_env (Py.VStr "a@x,b@y") "Subj" "<p>hi</p>"
             None None Py.VNone Py.VNone [] in
  is_str_or_list Py.VNone = false
  /\ fst r = inr tt
  /\ map envelope_to (outbox (snd r)) = [["a@x"; "b@y"]].
Proof. repeat split; vm_compute; reflexivity. Qed.

(** C8, amended. [send_email_message] raises, with nothing handed to the
    transport, when the To argument is neither a str nor a list (the To
    message), else when a Cc argument other than [None] is neither (the Cc
    message), else when a Bcc argument other than [None] is neither (the Bcc
    message); the three messages differ.  [None] for Cc or Bcc is the
    parameter left out and is skipped.  When all three are accepted, the
    builder's To, Cc and Bcc lists are the comma-split of a str argument and a
    list argument as it is (empty for a Cc or Bcc left out), and these are the
    recipients. *)
Theorem send_email_message_address_types
  (env : Env) (to : Py.value) (subj html : string) (style from : option string)
  (cc bcc : Py.value) (sent : list delivery) :
  let r := send_email_message env to subj html style from cc bcc sent in
  (is_str_or_list to = false ->
     fst r = inl (Exception to_not_recognized) /\ outbox (snd r) = sent)
  /\ (is_str_or_list to = true -> is_str_or_list_or_none cc = false ->
        fst r = inl (Exception cc_not_recognized) /\ outbox (snd r) = sent)
  /\ (is_str_or_list to = true -> is_str_or_list_or_none cc = true ->
      is_str_or_list_or_none bcc = false ->
        fst r = inl (Exception bcc_not_recognized) /\ outbox (snd r) = sent)
  /\ (to_not_recognized <> cc_not_recognized /\ to_not_recognized <> bcc_not_recognized
      /\ cc_not_recognized <> bcc_not_recognized)
  /\ (forall s, address_list (Py.VStr s) = Py.split Py.comma s)
  /\ (forall l, address_list (Py.VList l) = l)
  /\ (is_str_or_list to = true -> is_str_or_list_or_none cc = true ->
      is_str_or_list_or_none bcc = true ->
        _to_addresses (self (snd r)) = address_list to
        /\ _cc_addresses (self (snd r)) = address_list cc
        /\ _bcc_addresses (self (snd r)) = address_list bcc
        /\ _recipients (self (snd r)) = address_list to ++ address_list cc ++ address_list bcc).
Proof.
  cbv zeta.
  split. { intros H. destruct to; try discriminate H; split; reflexivity. }
  split. { intros Hto H. destruct to; try discriminate Hto;
           destruct cc; try discriminate H; split; reflexivity. }
  split. { intros Hto Hcc H. destruct to; try discriminate Hto;
           destruct cc; try discriminate Hcc;
           destruct bcc; try discriminate H; split; reflexivity. }
  split; [exact type_messages_distinct|].
  split; [reflexivity|]. split; [reflexivity|].
  intros Hto Hcc Hbcc.
  rewrite send_email_message_accepted by assumption.
  destruct (send_email_addresses env true
              {| self := prepared to subj html style from cc bcc; outbox := sent |})
    as (-> & -> & -> & ->).
  apply prepared_addresses.
Qed.

(** An int for the Bcc argument: the Bcc message, and an empty log. *)
Example bcc_of_wrong_type :
  send_email_message example_env (Py.VStr "a@x,b@y") "Subj" "<p>hi</p>" None None
    (Py.VList ["c@z"]) (Py.VOther "int") []
  = (inl (Exception "BCC address list not recognized"),
     {| self := cc_addresses_setter ["c@z"] (to_addresses_setter ["a@x"; "b@y"] (__init__ []));
        outbox := [] |}).
Proof. reflexivity. Qed.

(** A list for the To argument is taken as it is. *)
Example to_given_as_list :
  let r := send_email_message example_env (Py.VList ["a@x"; "b@y"]) "Subj" "<p>hi</p>"
             None None Py.VNone Py.VNone [] in
  fst r = inr tt
  /\ _to_addresses (self (snd r)) = ["a@x"; "b@y"]
  /\ map (fun d => (envelope_to d, Mime.get_all "To" (document d))) (outbox (snd r))
     = [(["a@x"; "b@y"], ["a@x,b@y"])].
Proof. repeat split; vm_compute; reflexivity. Qed.

(* ================================================================== *)
(** * Further properties of the module *)

(** ** The constructor with positional arguments *)

Lemma init_arg_beyond i arg st : 7 <= i -> init_arg i arg st = st.
Proof.
  intros H. destruct st as [[s tl] bl].
  do 7 (destruct i as [|i]; [lia|]). reflexivity.
Qed.

Lemma init_loop_beyond args : forall i st, 7 <= i -> init_loop i args st = st.
Proof.
  induction args as [|arg rest IH]; intros i st H; cbn [init_loop]; [reflexivity|].
  rewrite init_arg_beyond by exact H. apply IH. lia.
Qed.

Lemma init_firstn args : __init__ args = __init__ (firstn 7 args).
Proof.
  unfold __init__.
  destruct args as [|a0 [|a1 [|a2 [|a3 [|a4 [|a5 [|a6 rest]]]]]]]; try reflexivity.
  cbn [firstn init_loop]. now rewrite init_loop_beyond by lia.
Qed.

(** Split a goal about [__init__ args] by the number of arguments, none
    beyond the seventh left. *)
Ltac by_arguments args :=
  rewrite ?(init_firstn args);
  destruct args as [|? [|? [|? [|? [|? [|? [|? ?]]]]]]]; cbn [firstn List.length].

(** X1. Construction with the first [k] of the seven positional arguments
    (text, HTML, subject, To, Bcc, From, host) gives the same builder as
    construction without arguments followed by the first [k] of the calls
    [add_plain_text], [add_html_text] without a style, the subject
    assignment, [add_to_line_address], [add_bcc_line_address], the From
    assignment and the host assignment. *)
Theorem legacy_constructor_as_calls
  (env : Env) (txt html subj sendTo bcc from srv : string) (k : nat) :
  __init__ (firstn k [txt; html; subj; sendTo; bcc; from; srv]) =
  self (run (in_env env (firstn k (legacy_calls txt html subj sendTo bcc from srv)))
          (fresh [])).
Proof.
  unfold __init__, legacy_calls, in_env.
  destruct k as [|[|[|[|[|[|[|[|k]]]]]]]];
    cbn [firstn map run perform mutate snd self fresh init_loop init_arg];
    unfold __init__, add_to_line_address, add_bcc_line_address; cbn [init_loop];
    pose proof (split_not_nil Py.comma sendTo); pose proof (split_not_nil Py.comma bcc);
    destruct (Py.split Py.comma sendTo), (Py.split Py.comma bcc);
    try contradiction; reflexivity.
Qed.

(** X2. The constructor looks at its first seven arguments only: any
    further argument changes nothing. *)
Theorem constructor_ignores_extra_arguments
  (txt html subj sendTo bcc from srv : string) (more : list string) :
  __init__ ([txt; html; subj; sendTo; bcc; from; srv] ++ more) =
  __init__ [txt; html; subj; sendTo; bcc; from; srv].
Proof. rewrite init_firstn. reflexivity. Qed.

(** X3. Whatever the arguments, a constructed builder has an empty Cc list
    and its recipients are its To list followed by its Bcc list.  With fewer
    than four arguments the To list is empty; with four or more it is the
    comma-split of the fourth and so never empty, even for an empty string.
    The Bcc list is the comma-split of the fifth argument when there is one. *)
Theorem constructor_address_lists (args : list string) :
  _cc_addresses (__init__ args) = []
  /\ _recipients (__init__ args) = _to_addresses (__init__ args) ++ _bcc_addresses (__init__ args)
  /\ (List.length args < 4 -> _to_addresses (__init__ args) = [])
  /\ (4 <= List.length args ->
      _to_addresses (__init__ args) = Py.split Py.comma (nth 3 args "")
      /\ _to_addresses (__init__ args) <> [])
  /\ (List.length args < 5 -> _bcc_addresses (__init__ args) = [])
  /\ (5 <= List.length args ->
      _bcc_addresses (__init__ args) = Py.split Py.comma (nth 4 args "")).
Proof.
  assert (Hlen : List.length args < 4 \/ List.length args = 4 \/ 5 <= List.length args) by lia.
  assert (H3 : nth 3 args "" = nth 3 (firstn 7 args) "").
  { destruct args as [|? [|? [|? [|? [|? [|? [|? ?]]]]]]]; reflexivity. }
  assert (H4 : nth 4 args "" = nth 4 (firstn 7 args) "").
  { destruct args as [|? [|? [|? [|? [|? [|? [|? ?]]]]]]]; reflexivity. }
  rewrite H3, H4. clear H3 H4.
  rewrite (init_firstn args).
  destruct args as [|a0 [|a1 [|a2 [|a3 [|a4 [|a5 [|a6 rest]]]]]]];
    cbn [firstn List.length nth] in *;
    unfold __init__; cbn [init_loop init_arg];
    try (pose proof (split_not_nil Py.comma a3) as Hto;
         destruct (Py.split Py.comma a3) as [|t ts]; [contradiction|]);
    try (pose proof (split_not_nil Py.comma a4) as Hbcc;
         destruct (Py.split Py.comma a4) as [|b bs]; [contradiction|]);
    repeat split; intros; try lia; try discriminate;
    try (destruct (add_html_text_kept a1 None (add_plain_text a0 init_properties))
           as (_ & _ & _ & Ht & Hc & Hb & Hr & _));
    cbn; rewrite ?Ht, ?Hc, ?Hb, ?Hr, ?app_nil_r; reflexivity.
Qed.

Lemma template_not_empty : Py.str_is_empty _template_html_header = false.
Proof.
  destruct (Py.str_is_empty _template_html_header) eqn:E; [|reflexivity].
  apply str_is_empty_true in E. now apply template_nonempty in E.
Qed.

Lemma init_html args :
  2 <= List.length args ->
  _html_header (__init__ args) = _template_html_header
  /\ _html_parts (__init__ args) = [nth 1 args ""].
Proof.
  intros Hlen.
  assert (H1 : nth 1 args "" = nth 1 (firstn 7 args) "").
  { destruct args as [|? [|? [|? [|? [|? [|? [|? ?]]]]]]]; reflexivity. }
  rewrite H1, (init_firstn args). clear H1.
  destruct args as [|a0 [|a1 [|a2 [|a3 [|a4 [|a5 [|a6 rest]]]]]]];
    cbn [firstn List.length nth] in *; try lia;
    unfold __init__; cbn [init_loop init_arg];
    try destruct (Py.split Py.comma a3); try destruct (Py.split Py.comma a4);
    split; reflexivity.
Qed.

(** X4. A builder constructed with at least the text and HTML arguments
    has the built-in stylesheet as its header from the start: whatever styles
    later [add_html_text] calls pass, the header stays the built-in one, and
    the HTML fragments are the constructor's fragment followed by the calls'
    fragments. *)
Theorem legacy_constructor_fixes_stylesheet
  (args : list string) (calls : list (string * option string)) :
  2 <= List.length args ->
  _html_header (add_html_calls calls (__init__ args)) = _template_html_header
  /\ _html_parts (add_html_calls calls (__init__ args)) = nth 1 args "" :: map fst calls.
Proof.
  intros Hlen. destruct (init_html args Hlen) as (Hh & Hp).
  rewrite add_html_calls_header, add_html_calls_parts, Hh, Hp, template_not_empty.
  split; reflexivity.
Qed.

Lemma legacy_constructor_fixes_stylesheet_witness :
  let s := add_html_calls [("<p>more</p>", Some "custom")] (__init__ ["text"; "<p>html</p>"]) in
  _html_header s = _template_html_header
  /\ _html_parts s = ["<p>html</p>"; "<p>more</p>"].
Proof.
  apply (legacy_constructor_fixes_stylesheet
           ["text"; "<p>html</p>"] [("<p>more</p>", Some "custom")]).
  cbn. lia.
Defined.

(** ** [attach_file] *)

Lemma set_message_back (s : t) : set__smtp_message (_smtp_message s) s = s.
Proof. destruct s; reflexivity. Qed.

Lemma has_slash_cons c rest :
  has_slash (String c rest) = Ascii.eqb c Py.slash || has_slash rest.
Proof. unfold has_slash. cbn [list_ascii_of_string existsb]. now rewrite Ascii.eqb_sym. Qed.

Lemma basename_cons c rest :
  Py.basename (String c rest) =
  if Ascii.eqb c Py.slash then Py.basename rest
  else if has_slash rest then Py.basename rest else String c rest.
Proof. reflexivity. Qed.

Lemma basename_no_slash p : has_slash (Py.basename p) = false.
Proof.
  induction p as [|c rest IH]; [reflexivity|].
  rewrite basename_cons.
  destruct (Ascii.eqb c Py.slash) eqn:Ec; [exact IH|].
  destruct (has_slash rest) eqn:Er; [exact IH|].
  now rewrite has_slash_cons, Ec, Er.
Qed.

Lemma basename_plain p : has_slash p = false -> Py.basename p = p.
Proof.
  destruct p as [|c rest]; [reflexivity|].
  rewrite has_slash_cons, basename_cons. intros H.
  apply orb_false_elim in H. destruct H as [Hc Hr]. now rewrite Hc, Hr.
Qed.

Lemma has_slash_app a b : has_slash (a +s+ b) = has_slash a || has_slash b.
Proof.
  induction a as [|c rest IH]; [reflexivity|].
  change (String c rest +s+ b) with (String c (rest +s+ b)).
  now rewrite !has_slash_cons, IH, orb_assoc.
Qed.

Lemma basename_of_path dir name :
  has_slash name = false -> Py.basename (dir +s+ "/" +s+ name) = name.
Proof.
  intros Hn. induction dir as [|c rest IH].
  - change ("" +s+ "/" +s+ name) with (String Py.slash name).
    rewrite basename_cons, Ascii.eqb_refl. now apply basename_plain.
  - change (String c rest +s+ "/" +s+ name) with (String c (rest +s+ "/" +s+ name)).
    rewrite basename_cons.
    destruct (Ascii.eqb c Py.slash); [exact IH|].
    rewrite has_slash_app.
    change ("/" +s+ name) with (String Py.slash name).
    rewrite has_slash_cons, Ascii.eqb_refl, orb_true_r. exact IH.
Qed.

(** X5. [attach_file] changes nothing but the list of parts of the
    message.  When the file cannot be read it raises [OSError] and the whole
    state is as before; when it can, it returns normally.  In both cases the
    transport log is untouched, every attribute other than the message is
    kept, and so are the header fields of the message. *)
Theorem attach_file_frame (env : Env) (file_path : string) (w : world) :
  (read_bytes env file_path = None ->
     attach_file env file_path w = (inl (OSError file_path), w))
  /\ (read_bytes env file_path <> None -> fst (attach_file env file_path w) = inr tt)
  /\ outbox (snd (attach_file env file_path w)) = outbox w
  /\ set__smtp_message (_smtp_message (self w)) (self (snd (attach_file env file_path w)))
     = self w
  /\ Mime.headers (_smtp_message (self (snd (attach_file env file_path w))))
     = Mime.headers (_smtp_message (self w)).
Proof.
  rewrite attach_file_eq.
  destruct (read_bytes env file_path) as [data|];
    repeat split; try congruence; cbn [snd self]; try apply set_message_back.
  destruct (self w); reflexivity.
Qed.

(** X6. When the file can be read, [attach_file] appends exactly one part
    after the parts already attached: an application/octet-stream part whose
    payload is the base64 encoding of the bytes read and whose disposition
    field is ["attachment; filename= "] followed by the last component of the
    path.  That file name has no slash in it, is the whole path when the path
    has none, and is [name] when the path is a directory, a slash and a
    slash-free [name]. *)
Theorem attach_file_appends_named_part
  (env : Env) (file_path data : string) (w : world) :
  read_bytes env file_path = Some data ->
  exists p,
    Mime.parts (_smtp_message (self (snd (attach_file env file_path w))))
      = Mime.parts (_smtp_message (self w)) ++ [p]
    /\ part_type p = "application/octet-stream"
    /\ Mime.body p = Mime.Base64 data
    /\ Mime.part_headers p =
         [("Content-Transfer-Encoding", "base64");
          ("Content-Disposition", "attachment; filename= " +s+ Py.basename file_path)]
    /\ has_slash (Py.basename file_path) = false
    /\ (has_slash file_path = false -> Py.basename file_path = file_path)
    /\ (forall dir name,
          file_path = dir +s+ "/" +s+ name -> has_slash name = false ->
          Py.basename file_path = name).
Proof.
  intros Hread. rewrite attach_file_eq, Hread.
  exists (file_part (Py.basename file_path) data).
  repeat split; try reflexivity.
  - apply basename_no_slash.
  - apply basename_plain.
  - intros dir name -> Hn. now apply basename_of_path.
Qed.

Lemma attach_file_appends_named_part_witness :
  exists p,
    Mime.parts (_smtp_message (self (snd (attach_file example_env
                                            "reports/test_attachment.jpg" (fresh [])))))
      = [p]
    /\ Mime.part_headers p =
         [("Content-Transfer-Encoding", "base64");
          ("Content-Disposition", "attachment; filename= test_attachment.jpg")].
Proof.
  destruct (attach_file_appends_named_part example_env "reports/test_attachment.jpg" "JFIF"
              (fresh []) eq_refl) as (p & Hp & _ & _ & Hh & _).
  exists p. exact (conj Hp Hh).
Defined.

(** ** [send_email]: what it keeps, failure of the transport, sending twice *)

(** X7. [send_email] never changes the From address, the host, the three
    address lists, the recipients, the stylesheet header or the text and HTML
    fragments, whether it raises or not; and the transport log after it is the
    log before it with at most one call added at the end. *)
Theorem send_email_frame (env : Env) (enable : bool) (w : world) :
  sendFrom (self (snd (send_email env enable w))) = sendFrom (self w)
  /\ smtp_server (self (snd (send_email env enable w))) = smtp_server (self w)
  /\ _to_addresses (self (snd (send_email env enable w))) = _to_addresses (self w)
  /\ _cc_addresses (self (snd (send_email env enable w))) = _cc_addresses (self w)
  /\ _bcc_addresses (self (snd (send_email env enable w))) = _bcc_addresses (self w)
  /\ _recipients (self (snd (send_email env enable w))) = _recipients (self w)
  /\ _html_header (self (snd (send_email env enable w))) = _html_header (self w)
  /\ _text_parts (self (snd (send_email env enable w))) = _text_parts (self w)
  /\ _html_parts (self (snd (send_email env enable w))) = _html_parts (self w)
  /\ exists calls,
       outbox (snd (send_email env enable w)) = outbox w ++ calls
       /\ List.length calls <= 1.
Proof.
  assert (Hlog : exists calls,
             outbox (snd (send_email env enable w)) = outbox w ++ calls
             /\ List.length calls <= 1).
  { destruct (send_email_log_cases env enable w) as [-> | ->].
    - exists []. split; [now rewrite app_nil_r | cbn; lia].
    - eexists. split; [reflexivity | cbn; lia]. }
  destruct (send_email_self_cases env enable w) as [-> | ->].
  - repeat (split; [reflexivity|]). exact Hlog.
  - destruct (rendered_kept env enable (self w))
      as (-> & -> & -> & -> & -> & -> & -> & -> & ->).
    repeat (split; [reflexivity|]). exact Hlog.
Qed.



Lemma rendered_body_parts env enable s : body_parts (rendered env enable s) = body_parts s.
Proof.
  unfold body_parts.
  destruct (rendered_kept env enable s) as (_ & _ & _ & _ & _ & _ & -> & -> & ->).
  reflexivity.
Qed.

Lemma rendered_fields_set env enable subj s :
  fields_set subj (rendered env enable s) = fields_set subj s.
Proof.
  unfold fields_set.
  destruct (rendered_kept env enable s) as (-> & _ & -> & -> & _). reflexivity.
Qed.

(** X9. Sending a builder twice does not start the message afresh.  On a
    builder not sent before that passes validation, the second send also
    passes validation; each send prepares one call, handed to the transport
    exactly when its session opens and its document serialises; and the
    second document is the first with the fields and body parts added once
    more: two To fields with the same value, two Subject fields (the subject
    after the first send, then after the second), and the parts of the first
    document followed by the plain-text and HTML parts again. *)
Theorem second_send_repeats_fields_and_parts
  (args : list string) (script : list (Env * call)) (env env' : Env) (enable enable' : bool) :
  let w := run script (fresh args) in
  let w1 := snd (send_email env enable w) in
  let w2 := snd (send_email env' enable' w1) in
  never_sent script = true ->
  valid (self w) ->
  valid (self w1)
  /\ exists d1 d2,
       outbox w2 = (if handed_over env d1 then [d1] else [])
                   ++ (if handed_over env' d2 then [d2] else [])
       /\ Mime.get_all "To" (document d1) = [Py.join "," (_to_addresses (self w))]
       /\ Mime.get_all "To" (document d2) =
            [Py.join "," (_to_addresses (self w)); Py.join "," (_to_addresses (self w))]
       /\ Mime.get_all "Subject" (document d2) = [subject (self w1); subject (self w2)]
       /\ Mime.parts (document d1) = flat_map attached script ++ body_parts (self w)
       /\ Mime.parts (document d2) = Mime.parts (document d1) ++ body_parts (self w).
Proof.
  intros w w1 w2 Hns Hv.
  destruct (run_unsent script (fresh args) Hns) as (Hh & Hp & Ho).
  fold w in Hh, Hp, Ho. cbn [fresh self outbox] in Hh, Hp, Ho.
  rewrite init_message in Hh, Hp. cbn [app] in Hp.
  assert (H1 : self w1 = rendered env enable (self w))
    by (apply send_email_pass_self; exact Hv).
  assert (Hv1 : valid (self w1)) by (rewrite H1; apply rendered_valid; exact Hv).
  assert (H2 : self w2 = rendered env' enable' (self w1))
    by (apply send_email_pass_self; exact Hv1).
  split; [exact Hv1|].
  exists (envelope (rendered env enable (self w))).
  exists (envelope (rendered env' enable' (self w1))).
  split.
  { unfold w2. rewrite send_email_pass_outbox by exact Hv1.
    unfold w1 at 2 4. rewrite send_email_pass_outbox by exact Hv. rewrite Ho.
    destruct (handed_over env _), (handed_over env' _); reflexivity. }
  cbn [envelope document]. unfold Mime.get_all.
  rewrite !rendered_headers, !rendered_parts, H1, !rendered_headers, !rendered_parts.
  rewrite rendered_body_parts, rendered_fields_set, Hh, Hp.
  rewrite !named_app, !fields_set_to.
  split; [reflexivity|]. split; [reflexivity|].
  split.
  { rewrite <- H1, <- H2. unfold fields_set.
    destruct (Py.list_is_empty (_cc_addresses (self w))); reflexivity. }
  split; reflexivity.
Qed.

Lemma second_send_repeats_fields_and_parts_witness :
  let w := run [(example_env, Add_to_line_address "a@x,b@y");
                (example_env, Set_subject "Report");
                (example_env, Add_plain_text "hello")] (fresh []) in
  let w2 := snd (send_email later_env true (snd (send_email example_env true w))) in
  exists d1 d2,
    outbox w2 = [d1; d2]
    /\ Mime.get_all "To" (document d2) = ["a@x,b@y"; "a@x,b@y"]
    /\ Mime.get_all "Subject" (document d2) =
         ["Report 2024-03-05 09:07"; "Report 2024-03-05 09:07 2024-12-31 23:59"]
    /\ Mime.parts (document d2) = [Mime.MIMEText "hello" "plain"; Mime.MIMEText "hello" "plain"].
Proof.
  pose (script := [(example_env, Add_to_line_address "a@x,b@y");
                   (example_env, Set_subject "Report");
                   (example_env, Add_plain_text "hello")]).
  assert (Hv : valid (self (run script (fresh [])))) by (repeat split; discriminate).
  destruct (second_send_repeats_fields_and_parts [] script example_env later_env true true
              eq_refl Hv)
    as (_ & d1 & d2 & Hout & _ & HTo & HSubj & Hp1 & Hp2).
  exists d1, d2. rewrite Hp1 in Hp2.
  assert (Hlen : List.length
            (outbox (snd (send_email later_env true
                            (snd (send_email example_env true (run script (fresh []))))))) = 2)
    by reflexivity.
  rewrite Hout in Hlen.
  destruct (handed_over example_env d1), (handed_over later_env d2);
    try discriminate Hlen.
  exact (conj Hout (conj HTo (conj HSubj Hp2))).
Defined.

(** ** The address lists and the recipients *)

Lemma init_lists args :
  _cc_addresses (__init__ args) = []
  /\ _recipients (__init__ args) = _to_addresses (__init__ args) ++ _bcc_addresses (__init__ args).
Proof.
  unfold __init__.
  pose proof (init_loop_inv args 0 (init_properties, None, None)) as H.
  destruct (init_loop 0 args (init_properties, None, None)) as [[s tl] bl].
  destruct H as (_ & Ht & Hc & Hb & Hr); [cbn; repeat split|].
  destruct tl as [[|a tl]|], bl as [[|b bl]|]; cbn;
    rewrite ?Ht, ?Hc, ?Hb, ?Hr, ?app_nil_r; split; reflexivity.
Qed.

Lemma rendered_listed env enable s :
  listed_are_recipients s -> listed_are_recipients (rendered env enable s).
Proof.
  unfold listed_are_recipients.
  destruct (rendered_kept env enable s) as (_ & _ & -> & -> & -> & -> & _). auto.
Qed.

Lemma perform_listed env c w :
  listed_are_recipients (self w) -> listed_are_recipients (self (snd (perform env c w))).
Proof.
  intros (Ht & Hc & Hb & Hn).
  destruct c; cbn [perform mutate snd self].
  1-4, 7-12:
    unfold listed_are_recipients; cbn; rewrite ?length_app;
    repeat split; auto using incl_appl, incl_appr, incl_refl, incl_app; lia.
  - unfold listed_are_recipients.
    destruct (add_html_text_kept html_text style_text (self w))
      as (_ & _ & _ & -> & -> & -> & -> & _).
    repeat split; assumption.
  - rewrite attach_file_eq. destruct (read_bytes env file_path); repeat split; assumption.
  - destruct (send_email_self_cases env enable_subj_timestamp w) as [-> | ->].
    + repeat split; assumption.
    + apply rendered_listed. repeat split; assumption.
Qed.

(** X10. On every builder, however constructed and whatever calls were
    made on it, each address of the To, Cc and Bcc lists is among the
    recipients, and the recipients are at least as many as the three lists
    together. *)
Theorem listed_addresses_are_recipients (args : list string) (script : list (Env * call)) :
  let s := self (run script (fresh args)) in
  incl (_to_addresses s) (_recipients s)
  /\ incl (_cc_addresses s) (_recipients s)
  /\ incl (_bcc_addresses s) (_recipients s)
  /\ List.length (_to_addresses s) + List.length (_cc_addresses s)
     + List.length (_bcc_addresses s) <= List.length (_recipients s).
Proof.
  cbv zeta. change (listed_are_recipients (self (run script (fresh args)))).
  assert (H0 : listed_are_recipients (self (fresh args))).
  { cbn [fresh self]. unfold listed_are_recipients.
    destruct (init_lists args) as (-> & ->). rewrite length_app. cbn.
    repeat split; auto using incl_appl, incl_appr, incl_refl, incl_nil_l. lia. }
  revert H0. generalize (fresh args).
  induction script as [|[env c] rest IH]; intros w H; cbn [run]; [exact H|].
  apply IH, perform_listed, H.
Qed.

Lemma rendered_permutation env enable s :
  recipients_are_listed s -> recipients_are_listed (rendered env enable s).
Proof.
  unfold recipients_are_listed.
  destruct (rendered_kept env enable s) as (_ & _ & -> & -> & -> & -> & _). auto.
Qed.

Lemma perform_permutation env c w :
  is_bulk_set c = false ->
  recipients_are_listed (self w) -> recipients_are_listed (self (snd (perform env c w))).
Proof.
  intros Hc H. unfold recipients_are_listed in *.
  destruct c; try discriminate Hc; cbn [perform mutate snd self]; try exact H.
  - cbn. rewrite <- app_assoc.
    rewrite (Permutation_app_comm (Py.split Py.comma address)).
    rewrite !app_assoc. apply Permutation_app_tail. now rewrite <- app_assoc.
  - cbn. rewrite <- (app_assoc (_cc_addresses (self w))).
    rewrite (Permutation_app_comm (Py.split Py.comma address) (_bcc_addresses (self w))).
    rewrite !app_assoc. apply Permutation_app_tail. now rewrite <- !app_assoc.
  - cbn. rewrite !app_assoc. apply Permutation_app_tail. now rewrite <- !app_assoc.
  - destruct (add_html_text_kept html_text style_text (self w))
      as (_ & _ & _ & -> & -> & -> & -> & _).
    exact H.
  - rewrite attach_file_eq. destruct (read_bytes env file_path); exact H.
  - destruct (send_email_self_cases env enable_subj_timestamp w) as [-> | ->];
      [exact H | apply rendered_permutation, H].
Qed.

(** X11. As long as no address list is assigned in bulk, the recipients
    are exactly the To, Cc and Bcc lists taken together (the same addresses
    with the same multiplicities, in call order rather than grouped by list),
    and so exactly as many. *)
Theorem recipients_are_the_three_lists (args : list string) (script : list (Env * call)) :
  no_bulk_set script = true ->
  let s := self (run script (fresh args)) in
  Permutation (_recipients s) (_to_addresses s ++ _cc_addresses s ++ _bcc_addresses s)
  /\ List.length (_recipients s) =
       List.length (_to_addresses s) + List.length (_cc_addresses s)
       + List.length (_bcc_addresses s).
Proof.
  intros Hns. cbv zeta.
  assert (H : recipients_are_listed (self (run script (fresh args)))).
  { assert (H0 : recipients_are_listed (self (fresh args))).
    { cbn [fresh self]. unfold recipients_are_listed.
      destruct (init_lists args) as (-> & ->). reflexivity. }
    revert H0 Hns. generalize (fresh args).
    induction script as [|[env c] rest IH]; intros w H Hns; cbn [run]; [exact H|].
    cbn [no_bulk_set forallb snd] in Hns. apply andb_prop in Hns. destruct Hns as [Hc Hrest].
    apply negb_true_iff in Hc. apply IH; [|exact Hrest].
    apply perform_permutation; assumption. }
  split; [exact H|].
  apply Permutation_length in H. rewrite H, !length_app. lia.
Qed.

Lemma recipients_are_the_three_lists_witness :
  let s := self (run [(example_env, Add_bcc_line_address "audit@z");
                      (example_env, Add_to_line_address "a@x,b@y");
                      (example_env, Add_cc_line_address "c@w")] (fresh [])) in
  Permutation (_recipients s) (_to_addresses s ++ _cc_addresses s ++ _bcc_addresses s)
  /\ List.length (_recipients s) =
       List.length (_to_addresses s) + List.length (_cc_addresses s)
       + List.length (_bcc_addresses s).
Proof.
  apply (recipients_are_the_three_lists []
           [(example_env, Add_bcc_line_address "audit@z");
            (example_env, Add_to_line_address "a@x,b@y");
            (example_env, Add_cc_line_address "c@w")]).
  reflexivity.
Defined.

(** ** Comma-separated arguments *)

Lemma append_assoc (a b c : string) : (a +s+ b) +s+ c = a +s+ b +s+ c.
Proof. induction a as [|x a IH]; [reflexivity|]. cbn [String.append]. now rewrite IH. Qed.

Lemma join_cons sep x y l :
  Py.join sep (x :: y :: l) = x +s+ sep +s+ Py.join sep (y :: l).
Proof. reflexivity. Qed.

Lemma join_app sep l1 l2 :
  l1 <> [] -> l2 <> [] ->
  Py.join sep (l1 ++ l2) = Py.join sep l1 +s+ sep +s+ Py.join sep l2.
Proof.
  intros H1 H2. induction l1 as [|x l1 IH]; [contradiction|].
  destruct l1 as [|x' l1].
  - destruct l2 as [|y l2]; [contradiction|]. reflexivity.
  - change ((x :: x' :: l1) ++ l2) with (x :: x' :: (l1 ++ l2)).
    rewrite !join_cons.
    change (x' :: l1 ++ l2) with ((x' :: l1) ++ l2).
    rewrite IH by discriminate. now rewrite !append_assoc.
Qed.

Lemma flat_map_split_not_nil adds :
  adds <> [] -> flat_map (Py.split Py.comma) adds <> [].
Proof.
  destruct adds as [|a rest]; [contradiction|]. intros _ H.
  cbn [flat_map] in H. apply app_eq_nil in H. destruct H as [H _].
  now apply split_not_nil in H.
Qed.

Lemma join_flat_map_split adds :
  Py.join "," (flat_map (Py.split Py.comma) adds) = Py.join "," adds.
Proof.
  induction adds as [|a rest IH]; [reflexivity|].
  cbn [flat_map]. destruct rest as [|b rest].
  - cbn [flat_map]. rewrite app_nil_r. apply (join_split Py.comma).
  - rewrite join_app by (try apply split_not_nil; apply flat_map_split_not_nil; discriminate).
    rewrite IH, join_cons. f_equal. apply (join_split Py.comma).
Qed.

Lemma split_length s : List.length (Py.split Py.comma s) = S (count_commas s).
Proof.
  induction s as [|c rest IH]; [reflexivity|].
  cbn [Py.split count_commas]. destruct (Ascii.eqb c Py.comma).
  - cbn [List.length]. now rewrite IH.
  - destruct (Py.split Py.comma rest); cbn [List.length] in *; lia.
Qed.

Lemma split_tokens_no_comma s tok :
  In tok (Py.split Py.comma s) -> count_commas tok = 0.
Proof.
  revert tok. induction s as [|c rest IH]; intros tok H.
  - destruct H as [<-|[]]. reflexivity.
  - cbn [Py.split] in H. destruct (Ascii.eqb c Py.comma) eqn:Ec.
    + destruct H as [<-|H]; [reflexivity | now apply IH].
    + destruct (Py.split Py.comma rest) as [|t ts].
      * destruct H as [<-|[]]. cbn [count_commas]. now rewrite Ec.
      * destruct H as [<-|H].
        -- cbn [count_commas]. rewrite Ec. apply IH. now left.
        -- apply IH. now right.
Qed.

(** X12. Each of the three add methods appends one entry more than its
    argument has commas, to its own list and to the recipients alike, and
    none of the entries it appends has a comma in it. *)
Theorem add_address_entry_count (a : string) (s : t) :
  List.length (_to_addresses (add_to_line_address a s))
    = List.length (_to_addresses s) + S (count_commas a)
  /\ List.length (_recipients (add_to_line_address a s))
    = List.length (_recipients s) + S (count_commas a)
  /\ List.length (_cc_addresses (add_cc_line_address a s))
    = List.length (_cc_addresses s) + S (count_commas a)
  /\ List.length (_recipients (add_cc_line_address a s))
    = List.length (_recipients s) + S (count_commas a)
  /\ List.length (_bcc_addresses (add_bcc_line_address a s))
    = List.length (_bcc_addresses s) + S (count_commas a)
  /\ List.length (_recipients (add_bcc_line_address a s))
    = List.length (_recipients s) + S (count_commas a)
  /\ (forall tok, In tok (Py.split Py.comma a) -> count_commas tok = 0).
Proof.
  repeat split; cbn; rewrite ?length_app, ?split_length; try reflexivity.
  intros tok. apply split_tokens_no_comma.
Qed.

Lemma run_add_to env adds : forall w,
  run (in_env env (map Add_to_line_address adds)) w =
  {| self := fold_left (fun s a => add_to_line_address a s) adds (self w);
     outbox := outbox w |}.
Proof.
  induction adds as [|a rest IH]; intros w; [destruct w; reflexivity|].
  cbn [in_env map run perform mutate snd fold_left]. fold (in_env env).
  rewrite IH. reflexivity.
Qed.

Lemma fold_add_to adds : forall s,
  sendFrom (fold_left (fun s a => add_to_line_address a s) adds s) = sendFrom s
  /\ smtp_server (fold_left (fun s a => add_to_line_address a s) adds s) = smtp_server s
  /\ _smtp_message (fold_left (fun s a => add_to_line_address a s) adds s) = _smtp_message s
  /\ _to_addresses (fold_left (fun s a => add_to_line_address a s) adds s)
     = _to_addresses s ++ flat_map (Py.split Py.comma) adds
  /\ _recipients (fold_left (fun s a => add_to_line_address a s) adds s)
     = _recipients s ++ flat_map (Py.split Py.comma) adds.
Proof.
  induction adds as [|a rest IH]; intros s; cbn [fold_left flat_map].
  - rewrite !app_nil_r. repeat split; reflexivity.
  - destruct (IH (add_to_line_address a s)) as (-> & -> & -> & -> & ->).
    cbn. rewrite <- !app_assoc. repeat split; reflexivity.
Qed.

(** X13. On a new builder, after any non-empty run of
    [add_to_line_address] calls, the To list is the comma-split tokens of the
    arguments in call order and [send_email] passes validation.  The call it
    prepares, handed to the transport exactly when the session opens and the
    document serialises, has as its one To field the arguments themselves
    joined by commas (splitting and joining give the text back, spaces and
    empty entries included), and as envelope recipients the tokens. *)
Theorem to_field_is_arguments_joined (env : Env) (enable : bool) (adds : list string) :
  adds <> [] ->
  let w := run (in_env env (map Add_to_line_address adds)) (fresh []) in
  _to_addresses (self w) = flat_map (Py.split Py.comma) adds
  /\ valid (self w)
  /\ exists d,
       outbox (snd (send_email env enable w)) = (if handed_over env d then [d] else [])
       /\ Mime.get_all "To" (document d) = [Py.join "," adds]
       /\ envelope_to d = flat_map (Py.split Py.comma) adds.
Proof.
  intros Hne w. unfold w. rewrite run_add_to. cbn [self fresh outbox].
  destruct (fold_add_to adds (__init__ [])) as (Hf & Hs & Hm & Ht & Hr).
  cbn [app] in Ht, Hr. change (_to_addresses (__init__ [])) with (@nil string) in Ht.
  change (_recipients (__init__ [])) with (@nil string) in Hr. cbn [app] in Ht, Hr.
  split; [exact Ht|].
  set (s := fold_left (fun s a => add_to_line_address a s) adds (__init__ [])) in *.
  assert (Hv : valid s).
  { unfold valid. rewrite Ht, Hf, Hs.
    split; [apply flat_map_split_not_nil, Hne | split; discriminate]. }
  split; [exact Hv|].
  exists (envelope (rendered env enable s)).
  split; [now rewrite send_email_pass_outbox by exact Hv|].
  cbn [envelope document envelope_to]. unfold Mime.get_all.
  rewrite rendered_headers, named_app, fields_set_to, Hm, Ht, join_flat_map_split.
  split; [reflexivity|].
  destruct (rendered_kept env enable s) as (_ & _ & _ & _ & _ & -> & _). exact Hr.
Qed.

Lemma to_field_is_arguments_joined_witness :
  let w := run (in_env example_env (map Add_to_line_address ["a@x, b@y"; ""; "c@z"]))
               (fresh []) in
  _to_addresses (self w) = ["a@x"; " b@y"; ""; "c@z"]
  /\ exists d,
       outbox (snd (send_email example_env false w)) = [d]
       /\ Mime.get_all "To" (document d) = ["a@x, b@y,,c@z"]
       /\ envelope_to d = ["a@x"; " b@y"; ""; "c@z"].
Proof.
  destruct (to_field_is_arguments_joined example_env false ["a@x, b@y"; ""; "c@z"])
    as (Ht & _ & d & Hout & HTo & Hto); [discriminate|].
  split; [exact Ht|].
  destruct (logged_call _ [] _ _ Hout eq_refl) as (_ & Hlog).
  exists d. exact (conj Hlog (conj HTo Hto)).
Defined.

(** ** [send_email_message]: what is sent *)

Lemma prepared_fields to subj html style from cc bcc :
  sendFrom (prepared to subj html style from cc bcc) =
    match from with
    | Some a => a
    | None => "do-not-reply@somewhere.org"
    end
  /\ smtp_server (prepared to subj html style from cc bcc) = "smtp.host.address"
  /\ subject (prepared to subj html style from cc bcc) = subj
  /\ _html_header (prepared to subj html style from cc bcc) = style_offered style
  /\ _html_parts (prepared to subj html style from cc bcc) = [html]
  /\ _text_parts (prepared to subj html style from cc bcc) = []
  /\ _smtp_message (prepared to subj html style from cc bcc) = Mime.MIMEMultipart "alternative".
Proof.
  unfold prepared. destruct cc, bcc, from, style; cbn; repeat split; reflexivity.
Qed.

Lemma address_list_of_str s : address_list (Py.VStr s) <> [].
Proof. apply split_not_nil. Qed.

(** X14. When its address arguments are accepted, the To list is not
    empty and the From address given is not the empty string,
    [send_email_message] prepares exactly one call, handed to the transport
    exactly when the session opens and the document serialises: to the default
    host, from the From argument or else the default address, to the To, Cc
    and Bcc addresses in that order.  The document has one Subject field, the
    subject with a space and the timestamp appended (the stamp is always on),
    one From field, one To field, and a single part, of type text/html, whose
    text is the style given (or the built-in stylesheet), [<BR>] and the HTML
    text. *)
Theorem send_email_message_delivery
  (env : Env) (to : Py.value) (subj html : string) (style from : option string)
  (cc bcc : Py.value) (sent : list delivery) :
  is_str_or_list to = true ->
  is_str_or_list_or_none cc = true ->
  is_str_or_list_or_none bcc = true ->
  address_list to <> [] ->
  from <> Some "" ->
  let sender := match from with
                | Some a => a
                | None => "do-not-reply@somewhere.org"
                end in
  exists d,
    outbox (snd (send_email_message env to subj html style from cc bcc sent)) =
      (if handed_over env d then sent ++ [d] else sent)
    /\ host d = "smtp.host.address"
    /\ envelope_from d = sender
    /\ envelope_to d = address_list to ++ address_list cc ++ address_list bcc
    /\ Mime.get_all "Subject" (document d) =
         [subj +s+ " " +s+ Py.strftime_Ymd_HM (localtime env)]
    /\ Mime.get_all "From" (document d) = [sender]
    /\ Mime.get_all "To" (document d) = [Py.join "," (address_list to)]
    /\ Mime.parts (document d) =
         [Mime.MIMEText (style_offered style +s+ "<BR>" +s+ html) "html"].
Proof.
  intros Hto Hcc Hbcc Hne Hfrom sender.
  rewrite send_email_message_accepted by assumption.
  set (s := prepared to subj html style from cc bcc).
  destruct (prepared_addresses to subj html style from cc bcc) as (Pt & Pc & Pb & Pr).
  destruct (prepared_fields to subj html style from cc bcc)
    as (Pf & Ps & Psubj & Phh & Php & Ptp & Pm).
  fold s in Pt, Pc, Pb, Pr, Pf, Ps, Psubj, Phh, Php, Ptp, Pm. fold sender in Pf.
  assert (Hv : valid s).
  { unfold valid. rewrite Pt, Pf, Ps. split; [exact Hne|]. split; [|discriminate].
    unfold sender. destruct from as [a|]; [congruence | discriminate]. }
  exists (envelope (rendered env true s)).
  split; [now rewrite send_email_pass_outbox by exact Hv|].
  destruct (rendered_kept env true s) as (Kf & Ks & _ & _ & _ & Kr & _).
  cbn [envelope host envelope_from envelope_to document]. unfold Mime.get_all.
  rewrite Kf, Ks, Kr, Pf, Ps, Pr, rendered_headers, rendered_parts, rendered_subject, Pm, Psubj.
  unfold fields_set, body_parts. rewrite Pf, Pt, Phh, Php, Ptp.
  repeat (split; [reflexivity|]).
  split; [destruct (Py.list_is_empty (_cc_addresses s)); reflexivity|].
  split; [destruct (Py.list_is_empty (_cc_addresses s)); reflexivity|].
  split; [destruct (Py.list_is_empty (_cc_addresses s)); reflexivity|].
  reflexivity.
Qed.

Lemma send_email_message_delivery_witness :
  exists d,
    outbox (snd (send_email_message example_env (Py.VStr "a@x,b@y") "Subj" "<p>hi</p>"
                   (Some "<style></style>") None (Py.VList ["c@w"]) Py.VNone []))
      = [d]
    /\ host d = "smtp.host.address"
    /\ envelope_from d = "do-not-reply@somewhere.org"
    /\ envelope_to d = ["a@x"; "b@y"; "c@w"]
    /\ Mime.get_all "Subject" (document d) = ["Subj 2024-03-05 09:07"]
    /\ Mime.get_all "From" (document d) = ["do-not-reply@somewhere.org"]
    /\ Mime.get_all "To" (document d) = ["a@x,b@y"]
    /\ Mime.parts (document d) = [Mime.MIMEText "<style></style><BR><p>hi</p>" "html"].
Proof.
  destruct (send_email_message_delivery example_env (Py.VStr "a@x,b@y") "Subj" "<p>hi</p>"
              (Some "<style></style>") None (Py.VList ["c@w"]) Py.VNone [])
    as (d & Hout & Hrest); try reflexivity; try discriminate.
  destruct (logged_call _ [] _ _ Hout eq_refl) as (_ & Hlog).
  exists d. exact (conj Hlog Hrest).
Defined.

(** X15. With accepted address arguments, [send_email_message] still
    fails validation, before any transport call, in two cases: an empty list
    for To raises the To-line error, and, with a To list that is not empty,
    an empty string for the From argument raises the From-line error.  A str
    given for To never gives an empty To list, not even the empty string. *)
Theorem send_email_message_validation
  (env : Env) (to : Py.value) (subj html : string) (style from : option string)
  (cc bcc : Py.value) (sent : list delivery) :
  is_str_or_list_or_none cc = true ->
  is_str_or_list_or_none bcc = true ->
  (to = Py.VList [] ->
     fst (send_email_message env to subj html style from cc bcc sent)
       = inl (Exception no_to_line)
     /\ outbox (snd (send_email_message env to subj html style from cc bcc sent)) = sent)
  /\ (is_str_or_list to = true -> address_list to <> [] -> from = Some "" ->
      fst (send_email_message env to subj html style from cc bcc sent)
        = inl (Exception no_from_line)
      /\ outbox (snd (send_email_message env to subj html style from cc bcc sent)) = sent)
  /\ (forall s, address_list (Py.VStr s) <> []).
Proof.
  intros Hcc Hbcc.
  split.
  { intros ->. rewrite send_email_message_accepted by (try reflexivity; assumption).
    rewrite send_email_eq. cbn [self].
    destruct (prepared_addresses (Py.VList []) subj html style from cc bcc) as (-> & _).
    split; reflexivity. }
  split; [|exact address_list_of_str].
  intros Hto Hne ->. rewrite send_email_message_accepted by assumption.
  rewrite send_email_eq. cbn [self].
  destruct (prepared_addresses to subj html style (Some "") cc bcc) as (-> & _).
  destruct (prepared_fields to subj html style (Some "") cc bcc) as (-> & _).
  destruct (address_list to); [contradiction|]. split; reflexivity.
Qed.

Lemma send_email_message_validation_witness :
  fst (send_email_message example_env (Py.VList []) "Subj" "<p>hi</p>" None None
         (Py.VStr "c@w") Py.VNone [])
    = inl (Exception no_to_line)
  /\ fst (send_email_message example_env (Py.VStr "") "Subj" "<p>hi</p>" None (Some "")
            (Py.VStr "c@w") Py.VNone [])
    = inl (Exception no_from_line).
Proof.
  split.
  - apply (send_email_message_validation example_env (Py.VList []) "Subj" "<p>hi</p>"
             None None (Py.VStr "c@w") Py.VNone [] eq_refl eq_refl).
    reflexivity.
  - apply (send_email_message_validation example_env (Py.VStr "") "Subj" "<p>hi</p>"
             None (Some "") (Py.VStr "c@w") Py.VNone [] eq_refl eq_refl);
      try reflexivity. discriminate.
Defined.

(** ** The legacy constructor, then a send *)

(** X16. A builder constructed with all seven positional arguments, From
    and host not empty, passes validation at once: [send_email] without the
    timestamp prepares one call, handed to the transport exactly when the
    session opens and the document serialises, to the given host, from the
    given From address, to the To tokens followed by the Bcc tokens.  The
    document has the To argument itself as its one To field, no Cc and no Bcc
    field, the subject as given, and two parts: the text as text/plain, then
    the built-in stylesheet, [<BR>] and the HTML as text/html. *)
Theorem legacy_message_delivery
  (env : Env) (txt html subj sendTo bcc from srv : string) :
  from <> "" ->
  srv <> "" ->
  exists d,
    outbox (snd (send_email env false (fresh [txt; html; subj; sendTo; bcc; from; srv]))) =
      (if handed_over env d then [d] else [])
    /\ host d = srv
    /\ envelope_from d = from
    /\ envelope_to d = Py.split Py.comma sendTo ++ Py.split Py.comma bcc
    /\ Mime.get_all "To" (document d) = [sendTo]
    /\ Mime.get_all "Cc" (document d) = []
    /\ Mime.get_all "Bcc" (document d) = []
    /\ Mime.get_all "Subject" (document d) = [subj]
    /\ Mime.parts (document d) =
         [Mime.MIMEText txt "plain";
          Mime.MIMEText (_template_html_header +s+ "<BR>" +s+ html) "html"].
Proof.
  intros Hfrom Hsrv.
  pose proof (join_split Py.comma sendTo) as J.
  pose proof (split_not_nil Py.comma sendTo) as Nt.
  pose proof (split_not_nil Py.comma bcc) as Nb.
  unfold fresh, __init__. cbn [init_loop init_arg].
  destruct (Py.split Py.comma sendTo) as [|t ts]; [contradiction|].
  destruct (Py.split Py.comma bcc) as [|b bs]; [contradiction|].
  match goal with
  | |- context [send_email env false {| self := ?x; outbox := [] |}] => set (s := x)
  end.
  assert (Hv : valid s) by (repeat split; [discriminate | exact Hfrom | exact Hsrv]).
  exists (envelope (rendered env false s)).
  split; [now rewrite send_email_pass_outbox by exact Hv|].
  destruct (rendered_kept env false s) as (Kf & Ks & _ & _ & _ & Kr & _).
  cbn [envelope host envelope_from envelope_to document]. unfold Mime.get_all.
  rewrite Kf, Ks, Kr, rendered_headers, rendered_parts, rendered_subject.
  rewrite !named_app, fields_set_to, fields_set_cc, fields_set_no_bcc.
  change (Py.join "," (_to_addresses s)) with (Py.join (String Py.comma "") (t :: ts)).
  rewrite J.
  repeat split.
Qed.

Lemma legacy_message_delivery_witness :
  exists d,
    outbox (snd (send_email example_env false
                   (fresh ["This is a sample message"; "<p>sample</p>"; "Sample";
                           "do-not-reply@somewhere.org"; "someone@somewhere.org";
                           "do-not-reply@somewhere.org"; "smtp.host.address"]))) = [d]
    /\ envelope_to d = ["do-not-reply@somewhere.org"; "someone@somewhere.org"]
    /\ Mime.get_all "To" (document d) = ["do-not-reply@somewhere.org"]
    /\ Mime.get_all "Subject" (document d) = ["Sample"].
Proof.
  destruct (legacy_message_delivery example_env "This is a sample message" "<p>sample</p>"
              "Sample" "do-not-reply@somewhere.org" "someone@somewhere.org"
              "do-not-reply@somewhere.org" "smtp.host.address")
    as (d & Ho & _ & _ & Ht & HTo & _ & _ & Hs & _); try discriminate.
  destruct (logged_call _ [] _ _ Ho eq_refl) as (_ & Hlog).
  exists d. exact (conj Hlog (conj Ht (conj HTo Hs))).
Defined.
